(** * Logos: versioned entities, registries, flow objects and client transport

    A shallow embedding of the Python sources of the Logos toolkit
    (datamodel.py, functiontools.py, texts.py, attributes.py, flow.py,
    networking.py) together with the properties established about them.

    Conventions of the embedding.
    - Python values that travel in snapshots are terms of [pyval]; object
      fields that the code initialises with [None] or fills from a snapshot
      keep that dynamic type.
    - A method is a computation in the monad [M S A := S -> result A * S]:
      the state produced by a computation that raises is the state at the
      point of the raise, as for a Python object mutated in place.
    - [now()] reads a clock owned by the environment: [time_source] lists the
      successive values of [round(time() * 1000)] and every call consumes one.
    - Names used inside a function body are resolved against the definitions
      the repository provides under that name; a name or attribute that no
      definition provides raises the error Python raises for it.  This
      holds for module-level names too: functiontools.py raises
      LogosSerializationError without importing it from error.py, so that
      the [raise] statements of [check_data] end in a NameError.  (Line 9
      of functiontools.py, an unfinished import of a module nothing uses,
      is left aside.)
    - The package rsa, on which the crypto functions of functiontools.py
      rest, is not part of the repository and is not modelled. *)

From Stdlib Require Import ZArith String Ascii List Bool Lia DecimalString.
From stdpp Require Import base gmap strings list.
Import ListNotations.
Local Open Scope Z_scope.

(* ===================================================================== *)
(** * Part I. The model                                                   *)
(* ===================================================================== *)

(** ** Python values, exceptions and the method monad *)

Module Py.

(** The exception classes the modelled code can raise: the three classes of
    error.py and the built-in ones. *)
Inductive exn : Type :=
| LogosPermissionError (msg : string)
| LogosSerializationError (msg : string)
| LogosStatusError (msg : string)
| ValueError (msg : string)
| TypeError (msg : string)
| AttributeError (msg : string)
| NameError (msg : string)
| KeyError (key : string)
| ZeroDivisionError (msg : string).

Inductive result (A : Type) : Type :=
| Ok (a : A)
| Raise (e : exn).

Arguments Ok {A} a.
Arguments Raise {A} e.

#[local] Set Warnings "-register-all".

(** JSON-compatible Python values; a dict keeps its insertion order. *)
Inductive pyval : Type :=
| PyNone
| PyBool (b : bool)
| PyInt (z : Z)
| PyStr (s : string)
| PyBytes (s : string)
| PyList (items : list pyval)
| PyDict (items : list (string * pyval)).

Definition type_name (v : pyval) : string :=
  match v with
  | PyNone => "NoneType"
  | PyBool _ => "bool"
  | PyInt _ => "int"
  | PyStr _ => "str"
  | PyBytes _ => "bytes"
  | PyList _ => "list"
  | PyDict _ => "dict"
  end.

Definition quote : string := String "039"%char EmptyString.
Definition dquote : string := String "034"%char EmptyString.

(** [key in d.keys()] *)
Fixpoint dict_has (d : list (string * pyval)) (key : string) : bool :=
  match d with
  | [] => false
  | (k, _) :: rest => if String.eqb k key then true else dict_has rest key
  end.

(** [d[key]] on a dict *)
Fixpoint dict_get (d : list (string * pyval)) (key : string) : option pyval :=
  match d with
  | [] => None
  | (k, v) :: rest => if String.eqb k key then Some v else dict_get rest key
  end.

(** [d[key] = v] on a dict: an existing key keeps its position. *)
Fixpoint dict_set (d : list (string * pyval)) (key : string) (v : pyval)
  : list (string * pyval) :=
  match d with
  | [] => [(key, v)]
  | (k, x) :: rest =>
      if String.eqb k key then (k, v) :: rest else (k, x) :: dict_set rest key v
  end.

(** [data[key]] for a string key. *)
Definition subscript (data : pyval) (key : string) : result pyval :=
  match data with
  | PyDict d =>
      match dict_get d key with
      | Some v => Ok v
      | None => Raise (KeyError key)
      end
  | PyList _ => Raise (TypeError "list indices must be integers or slices, not str")
  | PyStr _ => Raise (TypeError "string indices must be integers, not 'str'")
  | PyBytes _ => Raise (TypeError "byte indices must be integers or slices, not str")
  | v => Raise (TypeError (quote +:+ type_name v +:+ quote +:+ " object is not subscriptable"))
  end.

(** [v.copy()]: lists and dicts have the method, the other values do not.
    Values are immutable terms here, so the copy is the value itself. *)
Definition copy (v : pyval) : result pyval :=
  match v with
  | PyList _ | PyDict _ => Ok v
  | _ => Raise (AttributeError (quote +:+ type_name v +:+ quote +:+
                                " object has no attribute " +:+ quote +:+ "copy" +:+ quote))
  end.

(** [x == PyInt z] for an element [x] of a container. *)
Definition eq_int (x : pyval) (z : Z) : bool :=
  match x with
  | PyInt y => y =? z
  | PyBool b => (if b then 1 else 0) =? z
  | _ => false
  end.

(** [z in v] for an int [z]. *)
Definition contains_int (v : pyval) (z : Z) : result bool :=
  match v with
  | PyList l => Ok (existsb (fun x => eq_int x z) l)
  | PyDict _ => Ok false
  | PyStr _ => Raise (TypeError
      (quote +:+ "in <string>" +:+ quote +:+ " requires string as left operand, not int"))
  | PyBytes s =>
      if (0 <=? z) && (z <? 256)
      then Ok (existsb (fun c => Z.of_nat (nat_of_ascii c) =? z) (list_ascii_of_string s))
      else Raise (ValueError "byte must be in range(0, 256)")
  | _ => Raise (TypeError ("argument of type " +:+ quote +:+ type_name v +:+ quote +:+
                           " is not iterable"))
  end.

(** [v.append(PyInt z)] *)
Definition append_int (v : pyval) (z : Z) : result pyval :=
  match v with
  | PyList l => Ok (PyList (l ++ [PyInt z]))
  | _ => Raise (AttributeError (quote +:+ type_name v +:+ quote +:+
                                " object has no attribute " +:+ quote +:+ "append" +:+ quote))
  end.

(** [str(v)] as used by [str.format] for the scalar values; the [repr] of
    containers is outside the modelled fragment. *)
Definition str (v : pyval) : option string :=
  match v with
  | PyNone => Some "None"
  | PyBool true => Some "True"
  | PyBool false => Some "False"
  | PyInt z => Some (NilZero.string_of_int (Z.to_int z))
  | PyStr s => Some s
  | _ => None
  end.

(** Calling a value: none of the values of [pyval] is callable. *)
Definition call {A : Type} (v : pyval) : result A :=
  Raise (TypeError (quote +:+ type_name v +:+ quote +:+ " object is not callable")).

(** Truth value of a Python value, as tested by [if]. *)
Definition truthy (v : pyval) : bool :=
  match v with
  | PyNone => false
  | PyBool b => b
  | PyInt z => negb (z =? 0)
  | PyStr s | PyBytes s => negb (String.eqb s "")
  | PyList l => negb (Nat.eqb (length l) 0)
  | PyDict d => negb (Nat.eqb (length d) 0)
  end.

(** Lookup of a name in a table of named definitions. *)
Fixpoint lookup {A} (table : list (string * A)) (name : string) : option A :=
  match table with
  | [] => None
  | (n, a) :: rest => if String.eqb n name then Some a else lookup rest name
  end.

(** *** The monad of methods *)

Definition M (S A : Type) : Type := S -> result A * S.

Definition ret {S A} (a : A) : M S A := fun s => (Ok a, s).

Definition bind {S A B} (m : M S A) (k : A -> M S B) : M S B :=
  fun s =>
    match m s with
    | (Ok a, s') => k a s'
    | (Raise e, s') => (Raise e, s')
    end.

Definition raise {S A} (e : exn) : M S A := fun s => (Raise e, s).

Definition lift {S A} (r : result A) : M S A := fun s => (r, s).

Definition get {S} : M S S := fun s => (Ok s, s).

Definition put {S} (s : S) : M S unit := fun _ => (Ok tt, s).

Definition modify {S} (f : S -> S) : M S unit := fun s => (Ok tt, f s).

(** Run a computation on a part of the state and write the part back,
    whether or not the computation raised. *)
Definition zoom {S T A} (get : S -> T) (set : T -> S -> S) (m : M T A) : M S A :=
  fun s => let '(r, t) := m (get s) in (r, set t s).

Definition is_raise {A} (r : result A) : bool :=
  match r with Raise _ => true | Ok _ => false end.

(** *** Iteration, indexed assignment and increment *)

(** [for x in v]: the values visited, in order.  A dict is visited by its
    keys; a str character by character and a bytes object byte by byte
    (a string is a sequence of one-byte characters here). *)
Definition iterate (v : pyval) : result (list pyval) :=
  match v with
  | PyList l => Ok l
  | PyDict d => Ok (List.map (fun kv => PyStr (fst kv)) d)
  | PyStr s =>
      Ok (List.map (fun c => PyStr (String c EmptyString)) (list_ascii_of_string s))
  | PyBytes s =>
      Ok (List.map (fun c => PyInt (Z.of_nat (nat_of_ascii c))) (list_ascii_of_string s))
  | _ => Raise (TypeError (quote +:+ type_name v +:+ quote +:+ " object is not iterable"))
  end.

(** The loop [for i, x in enumerate(items): if x == z: pos = i], started at
    index [i] with the current value of [pos]. *)
Fixpoint last_index_from (i pos : Z) (items : list pyval) (z : Z) : Z :=
  match items with
  | [] => pos
  | x :: rest => last_index_from (i + 1) (if eq_int x z then i else pos) rest z
  end.

(** What [v[i] = x] does for an int index [i]. *)
Inductive store_outcome : Type :=
| Stored (v : pyval)        (* the container after the assignment *)
| StoreRaises (e : exn)
| StoreIndexError           (* IndexError: list assignment index out of range *)
| StoreIntKey.              (* a dict takes the int as a new key: the result
                               is not a value of [pyval] *)

Definition store_index (v : pyval) (i : Z) (x : pyval) : store_outcome :=
  match v with
  | PyList l =>
      let n := Z.of_nat (length l) in
      let j := if i <? 0 then i + n else i in
      if (0 <=? j) && (j <? n) then Stored (PyList (<[Z.to_nat j := x]> l))
      else StoreIndexError
  | PyDict _ => StoreIntKey
  | _ => StoreRaises (TypeError (quote +:+ type_name v +:+ quote +:+
                                 " object does not support item assignment"))
  end.

(** [v += 1] *)
Definition add_one (v : pyval) : result pyval :=
  match v with
  | PyInt z => Ok (PyInt (z + 1))
  | PyBool b => Ok (PyInt ((if b then 1 else 0) + 1))
  | PyStr _ => Raise (TypeError ("can only concatenate str (not " +:+ dquote +:+ "int" +:+
                                  dquote +:+ ") to str"))
  | PyBytes _ => Raise (TypeError "can't concat int to bytes")
  | PyList _ => Raise (TypeError "'int' object is not iterable")
  | _ => Raise (TypeError ("unsupported operand type(s) for +=: " +:+ quote +:+
                           type_name v +:+ quote +:+ " and 'int'"))
  end.

(** [str(z)] for an int. *)
Definition str_of_int (z : Z) : string := NilZero.string_of_int (Z.to_int z).

End Py.

Export Py.

Declare Scope py_scope.
Delimit Scope py_scope with py.
Notation "x <- m ;; k" := (bind m (fun x => k))
  (at level 100, m at next level, right associativity) : py_scope.
Notation "m ;; k" := (bind m (fun _ => k))
  (at level 100, right associativity) : py_scope.
Local Open Scope py_scope.

(** ** functiontools.py *)

Module functiontools.

(** The exception classes that functiontools.py binds, by name.  The module
    imports Enum, sha256, json, time and rsa and defines functions only: it
    binds no exception class, and LogosSerializationError in particular is
    not imported from error.py. *)
Definition exception_classes : list (string * (string -> exn)) := [].

(** [raise name(msg)]: the name is looked up first. *)
Definition raise_class {A : Type} (name : string) (msg : string) : result A :=
  match lookup exception_classes name with
  | Some cls => Raise (cls msg)
  | None => Raise (NameError ("name " +:+ quote +:+ name +:+ quote +:+ " is not defined"))
  end.

(** [check_data(data, keys)] *)
Definition check_data (data : pyval) (keys : list string) : result bool :=
  match data with
  | PyDict d =>
      if forallb (dict_has d) keys then Ok true
      else raise_class "LogosSerializationError"
             ("Data must contain key(s) " +:+ dquote +:+
              String.concat ", " keys +:+ dquote +:+ ".")
  | _ => raise_class "LogosSerializationError" "Data must be converted to dict."
  end.

(** [check_switch(panel, switch)]: [panel // switch % 2 == 1].  Python's
    [//] and [%] on ints are floor division and its remainder, which is what
    [Z.div] and [Z.modulo] compute; a zero divisor raises. *)
Definition check_switch (panel switch : Z) : result bool :=
  if switch =? 0 then Raise (ZeroDivisionError "integer division or modulo by zero")
  else Ok ((panel / switch) mod 2 =? 1).

(** [get_package_template(is_response, is_micro)] *)
Definition get_package_template (is_response is_micro : bool) : pyval :=
  if negb is_micro then
    if negb is_response then
      PyDict [("PackageType", PyStr "Logos");
              ("PackageVersion", PyList [PyInt 0; PyInt 0; PyInt 1; PyStr "dev"]);
              ("PackageID", PyStr "");
              ("Operation", PyStr "");
              ("Content", PyBytes "")]
    else
      PyDict [("PackageType", PyStr "Logos_response");
              ("PackageVersion", PyList [PyInt 0; PyInt 0; PyInt 1; PyStr "dev"]);
              ("PackageID", PyStr "");
              ("PackageHash", PyBytes "");
              ("QueryInterval", PyList [PyInt 0; PyInt 100])]
  else
    if negb is_response then PyList [PyStr ""; PyStr ""; PyBytes ""]
    else PyList [PyStr ""; PyBytes ""; PyList [PyInt 0; PyInt 100]].

End functiontools.

(** ** The environment: the clock and the class-level state *)

Module Env.

(** Class attributes of [LogosUpdateableSingleton] as seen from one class. *)
Record Singleton : Type := mkSingleton {
  cls_last_update : Z;
  cls_version : Z
}.

(** Class attributes of [Tags]. *)
Record TagsState : Type := mkTags {
  Tags_base : Singleton;
  tag_ids : list Z
}.

Record World : Type := mkWorld {
  time_source : nat -> Z;     (* successive values of round(time() * 1000) *)
  time_reads : nat;           (* how many of them have been read *)
  Tags_cls : TagsState;       (* the class Tags *)
  CurrentUser_id : pyval      (* CurrentUser.__id *)
}.

Definition set_time_reads (n : nat) (w : World) : World :=
  mkWorld (time_source w) n (Tags_cls w) (CurrentUser_id w).

Definition set_Tags_cls (t : TagsState) (w : World) : World :=
  mkWorld (time_source w) (time_reads w) t (CurrentUser_id w).

(** [now()]: the next reading of the clock. *)
Definition now : M World Z :=
  fun w => (Ok (time_source w (time_reads w)), set_time_reads (S (time_reads w)) w).

(** The state a method of an object runs in: the world and [self]. *)
Definition in_world {S A} (m : M World A) : M (World * S) A :=
  zoom fst (fun w s => (w, snd s)) m.

Definition self {S} : M (World * S) S := fun s => (Ok (snd s), s).

Definition set_self {S} (f : S -> S) : M (World * S) unit :=
  modify (fun s => (fst s, f (snd s))).

(** A method of a base class run on the base part of [self]. *)
Definition super {S B A} (base : S -> B) (set_base : B -> S -> S)
  (m : M (World * B) A) : M (World * S) A :=
  zoom (fun s => (fst s, base (snd s)))
       (fun t s => (fst t, set_base (snd t) (snd s))) m.

(** A constructor: [__init__] runs on the fresh object; the caller gets the
    object only when [__init__] returns. *)
Definition construct {S} (fresh : S) (init : M (World * S) unit) : M World S :=
  fun w =>
    match init (w, fresh) with
    | (Ok _, (w', obj)) => (Ok obj, w')
    | (Raise e, (w', _)) => (Raise e, w')
    end.

End Env.

Export Env.

(** ** datamodel.py *)

Module LogosUpgradeable.

Record t : Type := mk {
  version : pyval        (* self.__version *)
}.

(** [LogosUpgradeable(version)]; the default version is [0]. *)
Definition new (version : pyval) : t := mk version.

(** [to_json_dict()] *)
Definition to_json_dict (self : t) : pyval := PyDict [("version", version self)].

(** [upgrade()]: [self.__version += 1] *)
Definition upgrade : M t unit :=
  fun self =>
    match add_one (version self) with
    | Ok v => (Ok tt, mk v)
    | Raise e => (Raise e, self)
    end.

(** [upgrade()] called [n] times in a row. *)
Fixpoint upgrade_times (n : nat) : M t unit :=
  match n with
  | O => ret tt
  | S m => upgrade ;; upgrade_times m
  end.

Section Json.

(** [json.loads] and [json.dumps] of the standard library, with whatever
    keyword arguments the caller forwards to them. *)
Variable json_loads : string -> result pyval.
Variable json_dumps : pyval -> result string.

(** [from_json(json_str)]: the object built, or [None] when the guard
    [if check_data(...)] is false. *)
Definition from_json (json_str : string) : result (option t) :=
  match json_loads json_str with
  | Raise e => Raise e
  | Ok data =>
      match functiontools.check_data data ["version"] with
      | Raise e => Raise e
      | Ok true =>
          match subscript data "version" with
          | Ok v => Ok (Some (new v))
          | Raise e => Raise e
          end
      | Ok false => Ok None
      end
  end.

(** [to_json()] *)
Definition to_json (self : t) : result string := json_dumps (to_json_dict self).

(** [deserialize(data)] *)
Definition deserialize (data : string) : result (option t) := from_json data.

(** [serialize()]: the body calls [to_json] and returns nothing. *)
Definition serialize (self : t) : result pyval :=
  match to_json self with
  | Ok _ => Ok PyNone
  | Raise e => Raise e
  end.

End Json.

End LogosUpgradeable.

Module LogosUpdateable.

Record t : Type := mk {
  last_update : Z;    (* self.__last_update *)
  version : Z         (* self.__version *)
}.

(** [__init__] *)
Definition init : t := mk 0 0.

(** The property [is_ready]: [self.__last_update > 0]. *)
Definition is_ready (self : t) : bool := 0 <? last_update self.

(** [on_data_received(data, version)] *)
Definition on_data_received (data : pyval) (version : Z) : M (World * t) unit :=
  t0 <- in_world now ;;
  set_self (fun s => mk t0 (LogosUpdateable.version s)) ;;
  set_self (fun s => mk (last_update s) version).

(** [on_update()] *)
Definition on_update : M (World * t) unit :=
  t0 <- in_world now ;;
  set_self (fun s => mk t0 (version s)).

End LogosUpdateable.

Module LogosLocallyCangeable.

Record t : Type := mk {
  base : LogosUpdateable.t;
  is_changed : bool            (* self.__is_changed *)
}.

Definition set_base (b : LogosUpdateable.t) (s : t) : t := mk b (is_changed s).

Definition last_update (s : t) : Z := LogosUpdateable.last_update (base s).
Definition version (s : t) : Z := LogosUpdateable.version (base s).
Definition is_ready (s : t) : bool := LogosUpdateable.is_ready (base s).

(** [__init__] *)
Definition init : t := mk LogosUpdateable.init false.

(** [on_data_received(data, version)] *)
Definition on_data_received (data : pyval) (version : Z) : M (World * t) unit :=
  super base set_base (LogosUpdateable.on_data_received data version) ;;
  set_self (fun s => mk (base s) false).

(** [on_update()] *)
Definition on_update : M (World * t) unit :=
  super base set_base LogosUpdateable.on_update ;;
  set_self (fun s => mk (base s) true).

(** [super().name()] in a subclass: the attribute [name] is looked up in the
    bodies of LogosLocallyCangeable and LogosUpdateable and the value found
    is called with no argument.  A method runs; a property yields its value,
    which is then called; a name neither class defines is an AttributeError.
    (The attributes inherited from [object] are not listed.) *)
Inductive attribute : Type :=
| a_init | a_on_data_received | a_on_update | a_to_json_dict
| a_is_changed | a_is_ready | a_last_update | a_version.

Definition attributes : list (string * attribute) :=
  [("__init__", a_init); ("on_data_received", a_on_data_received);
   ("on_update", a_on_update); ("to_json_dict", a_to_json_dict);
   ("is_changed", a_is_changed); ("is_ready", a_is_ready);
   ("last_update", a_last_update); ("version", a_version)].

Definition super_call (name : string) : M (World * t) pyval :=
  match lookup attributes name with
  | None => raise (AttributeError
      ("'super' object has no attribute " +:+ quote +:+ name +:+ quote))
  | Some a_init => set_self (fun _ => init) ;; ret PyNone
  | Some a_on_update => on_update ;; ret PyNone
  | Some a_to_json_dict => ret PyNone
  | Some a_on_data_received => raise (TypeError
      "on_data_received() missing 2 required positional arguments: 'data' and 'version'")
  | Some a_is_changed => s <- self ;; lift (call (PyBool (is_changed s)))
  | Some a_is_ready => s <- self ;; lift (call (PyBool (is_ready s)))
  | Some a_last_update => s <- self ;; lift (call (PyInt (last_update s)))
  | Some a_version => s <- self ;; lift (call (PyInt (version s)))
  end.

End LogosLocallyCangeable.

Module LogosUpdateableSingleton.

(** [is_ready()]: [cls.__last_update > 0]. *)
Definition is_ready (cls : Singleton) : bool := 0 <? cls_last_update cls.

Definition get_last_update (cls : Singleton) : Z := cls_last_update cls.
Definition get_version (cls : Singleton) : Z := cls_version cls.

(** [on_data_received(data, version)] *)
Definition on_data_received {D : Type} (data : D) (version : Z)
  : M (World * Singleton) unit :=
  t0 <- in_world now ;;
  set_self (fun s => mkSingleton t0 (cls_version s)) ;;
  set_self (fun s => mkSingleton (cls_last_update s) version).

End LogosUpdateableSingleton.

(** ** security.py *)

Module LogosPermissionTypes.

Definition NO_PERMISSION : Z := 0.
Definition READ : Z := 1.
Definition WRITE : Z := 2.
Definition ADMINISTRATE : Z := 4.

End LogosPermissionTypes.

(** ** texts.py *)

Module Texts.

Definition DEFAULT_LANGUAGE : string := "en".

(** Class attributes of [Texts]: the catalog maps a language to its table
    of texts. *)
Record t : Type := mk {
  base : Singleton;
  content : gmap string (gmap string string);   (* __content *)
  default_value : string;                       (* __default_value *)
  language : string                             (* __language *)
}.

Definition init : t := mk (mkSingleton 0 0) ∅ "" "en".

Definition has_key {V} (d : gmap string V) (key : string) : bool :=
  match d !! key with Some _ => true | None => false end.

(** [exists(key, language, strict)] *)
Definition exists_ (cls : t) (key language : string) (strict : bool) : bool :=
  let result := false in
  let language := if String.eqb language "" then Texts.language cls else language in
  if strict then
    match content cls !! language with
    | Some table => has_key table key
    | None => result
    end
  else
    match content cls !! language with
    | Some table => has_key table key
    | None =>
        match content cls !! DEFAULT_LANGUAGE with
        | Some table => has_key table key
        | None => result
        end
    end.

(** [get(key, language)] *)
Definition get (cls : t) (key language : string) : string :=
  let result := default_value cls in
  let language := if String.eqb language "" then Texts.language cls else language in
  match content cls !! language with
  | Some table =>
      match table !! key with
      | Some text => text
      | None => result
      end
  | None =>
      match content cls !! DEFAULT_LANGUAGE with
      | Some table =>
          match table !! key with
          | Some text => text
          | None => result
          end
      | None => result
      end
  end.

Definition get_default_value (cls : t) : string := default_value cls.
Definition get_language (cls : t) : string := language cls.

Definition set_default_value (new_value : string) (cls : t) : t :=
  mk (base cls) (content cls) new_value (language cls).

Definition set_language (new_value : string) (cls : t) : t :=
  mk (base cls) (content cls) (default_value cls) new_value.

Definition set_base (b : Singleton) (cls : t) : t :=
  mk b (content cls) (default_value cls) (language cls).

(** [on_data_received(data, version)] *)
Definition on_data_received (data : gmap string (gmap string string)) (version : Z)
  : M (World * t) unit :=
  super base set_base (LogosUpdateableSingleton.on_data_received data version) ;;
  set_self (fun cls => mk (base cls) data (default_value cls) (language cls)).

End Texts.

(** ** attributes.py *)

Module Tags.

(** [available(tag_id)]: [tag_id in cls.__tag_ids] *)
Definition available (w : World) (tag_id : Z) : bool :=
  existsb (fun x => x =? tag_id) (tag_ids (Tags_cls w)).

Definition get_all_ids (w : World) : list Z := tag_ids (Tags_cls w).

(** [on_data_received(data, version)] *)
Definition on_data_received (data : list Z) (version : Z) : M World unit :=
  zoom (fun w => (w, Tags_base (Tags_cls w)))
       (fun t _ => set_Tags_cls (mkTags (snd t) (tag_ids (Tags_cls (fst t)))) (fst t))
       (LogosUpdateableSingleton.on_data_received data version) ;;
  modify (fun w => set_Tags_cls (mkTags (Tags_base (Tags_cls w)) data) w).

(** [get(tag_id)]; [texts] is the class Texts. *)
Definition get (w : World) (texts : Texts.t) (tag_id : Z) : result string :=
  if negb (available w tag_id)
  then Raise (LogosPermissionError ("Tag #" +:+ str_of_int tag_id +:+ " is not accessible."))
  else Ok (Texts.get texts ("#" +:+ str_of_int tag_id) "").

(** [get_all_tags_with_id()] *)
Definition get_all_tags_with_id (w : World) (texts : Texts.t) : list pyval :=
  List.map (fun tag_id =>
              PyDict [("id", PyInt tag_id);
                      ("text", PyStr (Texts.get texts ("#" +:+ str_of_int tag_id) ""))])
           (tag_ids (Tags_cls w)).

(** [is_ready()]: [all([super().is_ready(), Texts.is_ready()])] *)
Definition is_ready (w : World) (texts : Texts.t) : bool :=
  LogosUpdateableSingleton.is_ready (Tags_base (Tags_cls w)) &&
  LogosUpdateableSingleton.is_ready (Texts.base texts).

End Tags.

Module Descriptions.

(** Class attributes of [Descriptions]: the structure maps a key to the
    list of its values. *)
Record t : Type := mk {
  base : Singleton;
  description_structure : gmap Z (list Z)      (* __description_structure *)
}.

Definition init : t := mk (mkSingleton 0 0) ∅.

Definition set_base (b : Singleton) (cls : t) : t := mk b (description_structure cls).

(** [available_key(key)] *)
Definition available_key (cls : t) (key : Z) : bool :=
  match description_structure cls !! key with Some _ => true | None => false end.

(** [available_value(key, value)] *)
Definition available_value (cls : t) (key value : Z) : result bool :=
  match description_structure cls !! key with
  | None => Raise (LogosPermissionError
      ("Description key #" +:+ str_of_int key +:+ " is not accessible."))
  | Some values => Ok (existsb (fun x => x =? value) values)
  end.

(** [get(key, value)] *)
Definition get (cls : t) (w : World) (texts : Texts.t) (key value : Z) : result pyval :=
  match available_value cls key value with
  | Raise e => Raise e
  | Ok false => Raise (LogosPermissionError
      ("Description value #" +:+ str_of_int value +:+ " is not " +:+
       "accessible at key #" +:+ str_of_int key +:+ "."))
  | Ok true =>
      match Tags.get w texts key with
      | Raise e => Raise e
      | Ok description =>
          match Tags.get w texts value with
          | Raise e => Raise e
          | Ok text => Ok (PyDict [("description", PyStr description);
                                   ("value", PyStr text)])
          end
      end
  end.

(** [get_all_value_ids(key)] *)
Definition get_all_value_ids (cls : t) (key : Z) : result (list Z) :=
  match description_structure cls !! key with
  | None => Raise (LogosPermissionError
      ("Description key #" +:+ str_of_int key +:+ " is not accessible."))
  | Some values => Ok values
  end.

(** [is_ready()]: [all([super().is_ready(), Tags.is_ready()])] *)
Definition is_ready (cls : t) (w : World) (texts : Texts.t) : bool :=
  LogosUpdateableSingleton.is_ready (base cls) && Tags.is_ready w texts.

(** [on_data_received(data, version)] *)
Definition on_data_received (data : gmap Z (list Z)) (version : Z) : M (World * t) unit :=
  super base set_base (LogosUpdateableSingleton.on_data_received data version) ;;
  set_self (fun cls => mk (base cls) data).

End Descriptions.

Module LogosAttributes.

Record t : Type := mk {
  base : LogosUpdateable.t;
  tags : pyval;              (* self.__tags *)
  descriptions : pyval       (* self.__descriptions *)
}.

Definition set_base (b : LogosUpdateable.t) (s : t) : t := mk b (tags s) (descriptions s).

Definition fresh : t := mk LogosUpdateable.init (PyList []) (PyDict []).

(** [on_data_received(data, version)] *)
Definition on_data_received (data : pyval) (version : Z) : M (World * t) unit :=
  super base set_base (LogosUpdateable.on_data_received data version) ;;
  _ <- lift (functiontools.check_data data ["tags"; "descriptions"]) ;;
  v <- lift (subscript data "tags") ;;
  c <- lift (copy v) ;;
  set_self (fun s => mk (base s) c (descriptions s)) ;;
  v <- lift (subscript data "descriptions") ;;
  c <- lift (copy v) ;;
  set_self (fun s => mk (base s) (tags s) c).

(** [LogosAttributes(data, version)] *)
Definition new (data : pyval) (version : Z) : M World t :=
  construct fresh
    (match data with
     | PyNone => ret tt
     | _ => on_data_received data version
     end).

End LogosAttributes.

Module LogosEditableAttributes.

Record t : Type := mk {
  base : LogosLocallyCangeable.t;
  tags : pyval;              (* self.__tags *)
  descriptions : pyval       (* self.__descriptions *)
}.

Definition set_base (b : LogosLocallyCangeable.t) (s : t) : t :=
  mk b (tags s) (descriptions s).

Definition is_changed (s : t) : bool := LogosLocallyCangeable.is_changed (base s).
Definition last_update (s : t) : Z := LogosLocallyCangeable.last_update (base s).
Definition version (s : t) : Z := LogosLocallyCangeable.version (base s).

Definition fresh : t := mk LogosLocallyCangeable.init (PyList []) (PyDict []).

(** [on_data_received(data, version)] *)
Definition on_data_received (data : pyval) (version : Z) : M (World * t) unit :=
  super base set_base (LogosLocallyCangeable.on_data_received data version) ;;
  _ <- lift (functiontools.check_data data ["tags"; "descriptions"]) ;;
  v <- lift (subscript data "tags") ;;
  c <- lift (copy v) ;;
  set_self (fun s => mk (base s) c (descriptions s)) ;;
  v <- lift (subscript data "descriptions") ;;
  c <- lift (copy v) ;;
  set_self (fun s => mk (base s) (tags s) c).

(** [LogosEditableAttributes(data, version)] *)
Definition new (data : pyval) (version : Z) : M World t :=
  construct fresh
    (match data with
     | PyNone => ret tt
     | _ => on_data_received data version
     end).

(** [add_tag(new_tag)] *)
Definition add_tag (new_tag : Z) : M (World * t) unit :=
  s <- self ;;
  present <- lift (contains_int (tags s) new_tag) ;;
  if present then raise (ValueError "Tag ID already exists.")
  else
    w <- in_world get ;;
    if negb (Tags.available w new_tag)
    then raise (LogosPermissionError "Tag ID is not accessible.")
    else
      l <- lift (append_int (tags s) new_tag) ;;
      set_self (fun s => mk (base s) l (descriptions s)) ;;
      _ <- super base set_base (LogosLocallyCangeable.super_call "om_update") ;;
      ret tt.

(** The property [tags] *)
Definition tags_property (s : t) : result pyval := copy (tags s).

(** The property [descriptions]: the copy is made and not returned. *)
Definition descriptions_property (s : t) : result pyval :=
  match copy (descriptions s) with
  | Ok _ => Ok PyNone
  | Raise e => Raise e
  end.

(** [to_json_dict()] *)
Definition to_json_dict (s : t) : result pyval :=
  match copy (tags s) with
  | Raise e => Raise e
  | Ok t0 =>
      match copy (descriptions s) with
      | Raise e => Raise e
      | Ok d0 => Ok (PyDict [("tags", t0); ("descriptions", d0)])
      end
  end.

(** [delete_tag(tag_id)] *)
Definition delete_tag (tag_id : Z) : M (World * t) unit :=
  s <- self ;;
  present <- lift (contains_int (tags s) tag_id) ;;
  if negb present then raise (ValueError "Tag ID doesn't exist.")
  else
    items <- lift (iterate (tags s)) ;;
    set_self (fun s => mk (base s)
                          (PyList (List.filter (fun x => negb (eq_int x tag_id)) items))
                          (descriptions s)) ;;
    _ <- super base set_base (LogosLocallyCangeable.super_call "om_update") ;;
    ret tt.

(** How a call of [change_tag] ends. *)
Inductive change_tag_outcome : Type :=
| Finished (r : result unit) (st : World * t)
| IndexError_raised (st : World * t)   (* IndexError from [self.__tags[pos] = new_tag] *)
| Int_key_stored.                      (* the tags were a dict, which took [pos] as a key *)

(** [change_tag(original_tag, new_tag)].  The test [pos < 0 in self.__tags]
    is a chained comparison: [pos < 0 and 0 in self.__tags]. *)
Definition change_tag (original_tag new_tag : Z) (st : World * t) : change_tag_outcome :=
  let s := snd st in
  match iterate (tags s) with
  | Raise e => Finished (Raise e) st
  | Ok items =>
      let pos := last_index_from 0 (-1) items original_tag in
      match (if pos <? 0 then contains_int (tags s) 0 else Ok false) with
      | Raise e => Finished (Raise e) st
      | Ok true => Finished (Raise (ValueError "Tag ID doesn't exist.")) st
      | Ok false =>
          if negb (Tags.available (fst st) new_tag)
          then Finished (Raise (LogosPermissionError "Tag ID is not accessible.")) st
          else
            match store_index (tags s) pos (PyInt new_tag) with
            | Stored l =>
                let '(r, st') :=
                  super base set_base (LogosLocallyCangeable.super_call "om_update")
                        (fst st, mk (base s) l (descriptions s)) in
                Finished (match r with Ok _ => Ok tt | Raise e => Raise e end) st'
            | StoreRaises e => Finished (Raise e) st
            | StoreIndexError => IndexError_raised st
            | StoreIntKey => Int_key_stored
            end
      end
  end.

End LogosEditableAttributes.

(** ** user.py *)

Module CurrentUser.

(** [get_id()]: [cls.__id] *)
Definition get_id : M World pyval := fun w => (Ok (CurrentUser_id w), w).

(** The names bound in the body of a classmethod of CurrentUser that denote
    the class, each with what the assignment [name.__id = value] does. *)
Definition id_targets : list (string * (pyval -> M (World * Singleton) unit)) :=
  [("cls", fun value =>
             modify (fun st => (mkWorld (time_source (fst st)) (time_reads (fst st))
                                        (Tags_cls (fst st)) value, snd st)))].

Definition assign_id (name : string) (value : pyval) : M (World * Singleton) unit :=
  match lookup id_targets name with
  | Some assign => assign value
  | None => raise (NameError ("name " +:+ quote +:+ name +:+ quote +:+ " is not defined"))
  end.

(** [on_data_received(data, version)], up to its first assignment
    [self.__id = data['id']]: the five assignments that follow it have the
    same target [self]. *)
Definition on_data_received (data : pyval) (version : Z) : M (World * Singleton) unit :=
  LogosUpdateableSingleton.on_data_received data version ;;
  _ <- lift (functiontools.check_data data
               ["id"; "display_name"; "attributes"; "sig_key"; "server_key";
                "terminal_settings"]) ;;
  v <- lift (subscript data "id") ;;
  assign_id "self" v.

End CurrentUser.

(** ** flow.py *)

Module LogosFlowObject.

Record t : Type := mk {
  base : LogosUpdateable.t;
  id : pyval;                               (* self.__id *)
  name : pyval;                             (* self.__name *)
  access_mode : pyval;                      (* self.__access_mode *)
  attributes : option LogosAttributes.t     (* self.__attributes *)
}.

Definition set_base (b : LogosUpdateable.t) (s : t) : t :=
  mk b (id s) (name s) (access_mode s) (attributes s).

Definition last_update (s : t) : Z := LogosUpdateable.last_update (base s).
Definition version (s : t) : Z := LogosUpdateable.version (base s).
Definition is_ready (s : t) : bool := LogosUpdateable.is_ready (base s).

Definition fresh : t :=
  mk LogosUpdateable.init PyNone PyNone (PyInt LogosPermissionTypes.NO_PERMISSION) None.

(** [on_data_received(data, version)] *)
Definition on_data_received (data : pyval) (version : Z) : M (World * t) unit :=
  super base set_base (LogosUpdateable.on_data_received data version) ;;
  _ <- lift (functiontools.check_data data ["id"; "name"; "access_mode"; "attributes"]) ;;
  v <- lift (subscript data "id") ;;
  set_self (fun s => mk (base s) v (name s) (access_mode s) (attributes s)) ;;
  v <- lift (subscript data "name") ;;
  set_self (fun s => mk (base s) (id s) v (access_mode s) (attributes s)) ;;
  v <- lift (subscript data "access_mode") ;;
  set_self (fun s => mk (base s) (id s) (name s) v (attributes s)) ;;
  v <- lift (subscript data "attributes") ;;
  a <- in_world (LogosAttributes.new v 0) ;;
  set_self (fun s => mk (base s) (id s) (name s) (access_mode s) (Some a)).

(** [LogosFlowObject(data, version)] *)
Definition new (data : pyval) (version : Z) : M World t :=
  construct fresh
    (match data with
     | PyNone => ret tt
     | _ => on_data_received data version
     end).

End LogosFlowObject.

Module LogosLog.

Record t : Type := mk {
  base : LogosFlowObject.t;
  entries : pyval            (* self.__entries *)
}.

Definition set_base (b : LogosFlowObject.t) (s : t) : t := mk b (entries s).

Definition fresh : t := mk LogosFlowObject.fresh PyNone.

(** [on_data_received(data, version)] *)
Definition on_data_received (data : pyval) (version : Z) : M (World * t) unit :=
  super base set_base (LogosFlowObject.on_data_received data version) ;;
  _ <- lift (functiontools.check_data data
               ["id"; "name"; "access_mode"; "attributes"; "entries"]) ;;
  set_self (fun s => mk (base s) PyNone).

(** [LogosLog(data, version)] *)
Definition new (data : pyval) (version : Z) : M World t :=
  construct fresh
    (match data with
     | PyNone => ret tt
     | _ => on_data_received data version
     end).

End LogosLog.

Module LogosLogContainer.

(** A [dict] subclass: the mapping itself and the flag [__in_init]. *)
Record t : Type := mk {
  items : gmap string LogosLog.t;
  in_init : bool
}.

(** The module-level names of flow.py that can be called with one snapshot
    to build a log.  [Log] is not among the names flow.py defines or
    imports. *)
Definition log_classes : list (string * (pyval -> M World LogosLog.t)) :=
  [("LogosLog", fun value => LogosLog.new value 0)].

Definition call_global (name : string) (value : pyval) : M World LogosLog.t :=
  match lookup log_classes name with
  | Some cls => cls value
  | None => raise (NameError ("name " +:+ quote +:+ name +:+ quote +:+ " is not defined"))
  end.

(** [__setitem__(key, value)] *)
Definition setitem (key : string) (value : LogosLog.t) : M (World * t) unit :=
  s <- self ;;
  if negb (in_init s)
  then raise (LogosPermissionError "LogosLogContainer is immutable.")
  else set_self (fun s => mk (<[key := value]> (items s)) (in_init s)).

(** The loop [for key, value in logs.items(): self[key] = Log(value)] *)
Fixpoint fill (logs : list (string * pyval)) : M (World * t) unit :=
  match logs with
  | [] => ret tt
  | (key, value) :: rest =>
      l <- in_world (call_global "Log" value) ;;
      setitem key l ;;
      fill rest
  end.

(** [__init__(logs)] *)
Definition init (logs : pyval) : M (World * t) unit :=
  set_self (fun s => mk (items s) true) ;;
  match logs with
  | PyNone => ret tt
  | PyDict d => fill d
  | v => raise (AttributeError (quote +:+ type_name v +:+ quote +:+
                                " object has no attribute " +:+ quote +:+ "items" +:+ quote))
  end ;;
  set_self (fun s => mk (items s) false).

(** [LogosLogContainer(logs)]; the new dict is empty and has no attribute
    [__in_init] until [__init__] sets it. *)
Definition new (logs : pyval) : M World t :=
  construct (mk ∅ true) (init logs).

End LogosLogContainer.

Module LogosChannel.

Record t : Type := mk {
  base : LogosFlowObject.t;
  logs : LogosLogContainer.t       (* self.__logs *)
}.

Definition set_base (b : LogosFlowObject.t) (s : t) : t := mk b (logs s).
Definition set_logs (l : LogosLogContainer.t) (s : t) : t := mk (base s) l.

(** [on_data_received(data, version)] *)
Definition on_data_received (data : pyval) (version : Z) : M (World * t) unit :=
  super base set_base (LogosFlowObject.on_data_received data version) ;;
  _ <- lift (functiontools.check_data data
               ["id"; "name"; "access_mode"; "attributes"; "logs"]) ;;
  v <- lift (subscript data "logs") ;;
  c <- in_world (LogosLogContainer.new v) ;;
  set_self (fun s => mk (base s) c).

(** [LogosChannel(data, version)] *)
Definition new (data : pyval) (version : Z) : M World t :=
  c <- LogosLogContainer.new PyNone ;;
  construct (mk LogosFlowObject.fresh c)
    (match data with
     | PyNone => ret tt
     | _ => on_data_received data version
     end).

(** [channel.logs[key] = value] *)
Definition logs_setitem (key : string) (value : LogosLog.t) : M (World * t) unit :=
  super logs set_logs (LogosLogContainer.setitem key value).

End LogosChannel.

Module LogosLogEntry.

Record t : Type := mk {
  base : LogosLocallyCangeable.t;
  id_time : pyval;                                  (* self.__id_time *)
  id_user : pyval;                                  (* self.__id_user *)
  access_mode : pyval;                              (* self.__access_mode *)
  content : pyval;                                  (* self.__content *)
  attributes : option LogosEditableAttributes.t;    (* self.__attributes *)
  attachments : pyval;                              (* self.__attachments *)
  is_finished : pyval                               (* self.__is_finished *)
}.

Definition set_base (b : LogosLocallyCangeable.t) (s : t) : t :=
  mk b (id_time s) (id_user s) (access_mode s) (content s) (attributes s)
     (attachments s) (is_finished s).

Definition last_update (s : t) : Z := LogosLocallyCangeable.last_update (base s).
Definition version (s : t) : Z := LogosLocallyCangeable.version (base s).

Definition fresh : t :=
  mk LogosLocallyCangeable.init (PyInt 0) (PyStr "")
     (PyInt LogosPermissionTypes.NO_PERMISSION) (PyStr "")
     (Some LogosEditableAttributes.fresh) PyNone (PyBool false).

(** The property [id]: ['{}-{}'.format(self.__id_time, self.__id_user)] *)
Definition id (s : t) : option string :=
  match str (id_time s), str (id_user s) with
  | Some a, Some b => Some (a +:+ "-" +:+ b)
  | _, _ => None
  end.

(** The property [is_changed]:
    [any([super().is_changed, self.attributes.is_changed,
          self.attachments.is_changed])].
    The list is built first, so every element is evaluated; [attachments]
    only ever holds a value of [pyval], none of which has the attribute. *)
Definition is_changed (s : t) : result bool :=
  match attributes s with
  | None => Raise (AttributeError
      ("'NoneType' object has no attribute " +:+ quote +:+ "is_changed" +:+ quote))
  | Some a =>
      Raise (AttributeError (quote +:+ type_name (attachments s) +:+ quote +:+
             " object has no attribute " +:+ quote +:+ "is_changed" +:+ quote))
  end.

(** The setter of the property [content] *)
Definition set_content (new_contant : pyval) : M (World * t) unit :=
  set_self (fun s => mk (base s) (id_time s) (id_user s) (access_mode s) new_contant
                        (attributes s) (attachments s) (is_finished s)) ;;
  super base set_base LogosLocallyCangeable.on_update.

(** [on_create()] *)
Definition on_create : M (World * t) unit :=
  ready <- super base set_base (LogosLocallyCangeable.super_call "is_ready") ;;
  if truthy ready
  then raise (LogosStatusError "Cannot create a log entry twice.")
  else
    t0 <- in_world now ;;
    set_self (fun s => mk (base s) (PyInt t0) (id_user s) (access_mode s) (content s)
                          (attributes s) (attachments s) (is_finished s)) ;;
    u <- in_world CurrentUser.get_id ;;
    set_self (fun s => mk (base s) (id_time s) u (access_mode s) (content s)
                          (attributes s) (attachments s) (is_finished s)) ;;
    set_self (fun s => mk (base s) (id_time s) (id_user s)
                          (PyInt (LogosPermissionTypes.READ + LogosPermissionTypes.WRITE))
                          (content s) (attributes s) (attachments s) (is_finished s)) ;;
    super base set_base LogosLocallyCangeable.on_update.

(** [on_data_received(data, version)] *)
Definition on_data_received (data : pyval) (version : Z) : M (World * t) unit :=
  super base set_base (LogosLocallyCangeable.on_data_received data version) ;;
  _ <- lift (functiontools.check_data data
               ["id_time"; "id_user"; "access_mode"; "attributes"; "attachments";
                "is_finished"]) ;;
  v <- lift (subscript data "id_time") ;;
  set_self (fun s => mk (base s) v (id_user s) (access_mode s) (content s)
                        (attributes s) (attachments s) (is_finished s)) ;;
  v <- lift (subscript data "id_user") ;;
  set_self (fun s => mk (base s) (id_time s) v (access_mode s) (content s)
                        (attributes s) (attachments s) (is_finished s)) ;;
  v <- lift (subscript data "access_mode") ;;
  set_self (fun s => mk (base s) (id_time s) (id_user s) v (content s)
                        (attributes s) (attachments s) (is_finished s)) ;;
  set_self (fun s => mk (base s) (id_time s) (id_user s) (access_mode s) (content s)
                        None (attachments s) (is_finished s)) ;;
  set_self (fun s => mk (base s) (id_time s) (id_user s) (access_mode s) (content s)
                        (attributes s) PyNone (is_finished s)) ;;
  v <- lift (subscript data "is_finished") ;;
  set_self (fun s => mk (base s) (id_time s) (id_user s) (access_mode s) (content s)
                        (attributes s) (attachments s) v).

(** [LogosLogEntry(data, version)] *)
Definition new (data : pyval) (version : Z) : M World t :=
  construct fresh
    (match data with
     | PyNone => ret tt
     | _ => on_data_received data version
     end).

(** The property [id_tine] *)
Definition id_tine (s : t) : pyval := id_time s.

(** The property [id_user]: it returns [self.__id_time]. *)
Definition id_user_property (s : t) : pyval := id_time s.

(** [to_json_dict()]: the values of the dict are evaluated in order. *)
Definition to_json_dict (s : t) : result pyval :=
  match attributes s with
  | None => Raise (AttributeError
      ("'NoneType' object has no attribute " +:+ quote +:+ "to_json_dict" +:+ quote))
  | Some a =>
      match LogosEditableAttributes.to_json_dict a with
      | Raise e => Raise e
      | Ok _ =>
          Raise (AttributeError (quote +:+ type_name (attachments s) +:+ quote +:+
                 " object has no attribute " +:+ quote +:+ "to_json_dict" +:+ quote))
      end
  end.

End LogosLogEntry.

(** ** networking.py *)

Module Queue.

(** [queue.Queue] of the Python standard library: [maxsize <= 0] means that
    the queue has no bound. *)
Record t : Type := mk {
  maxsize : Z;
  queue : list pyval
}.

(** [Queue(maxsize=0)] *)
Definition new (maxsize : Z) : t := mk maxsize [].

Definition qsize (q : t) : Z := Z.of_nat (length (queue q)).

(** What [put(item)] (blocking, without timeout) does to the caller. *)
Inductive put_outcome : Type :=
| Enqueued (q : t)     (* the item was appended and put returned *)
| Blocks.              (* the caller waits: the queue is full *)

Definition put (q : t) (item : pyval) : put_outcome :=
  if (0 <? maxsize q) && (maxsize q <=? qsize q) then Blocks
  else Enqueued (mk (maxsize q) (queue q ++ [item])).

End Queue.

Module Client.

(** Class attributes of [Client]. *)
Record t : Type := mk {
  is_online : bool;
  package_queue : Queue.t       (* __package_queue = Queue() *)
}.

Definition init : t := mk false (Queue.new 0).

(** The package [send] builds: the template of a data package with three
    of its items assigned.  [get_package_template()] with its default
    arguments is a dict, so the last branch is never taken. *)
Definition package (package_id operation content : string) : pyval :=
  match functiontools.get_package_template false false with
  | PyDict d =>
      PyDict (dict_set (dict_set (dict_set d "PackageID" (PyStr package_id))
                                 "Operation" (PyStr operation))
                       "Content" (PyBytes content))
  | v => v
  end.

(** [send(package_id, operation, content)]: [None] stands for a caller that
    is blocked inside [put]. *)
Definition send (package_id operation content : string) (cls : t) : option t :=
  match Queue.put (package_queue cls) (package package_id operation content) with
  | Queue.Enqueued q => Some (mk (is_online cls) q)
  | Queue.Blocks => None
  end.

(** A sequence of [send] calls, each a triple (package id, operation,
    content). *)
Fixpoint send_all (calls : list (string * string * string)) (cls : t) : option t :=
  match calls with
  | [] => Some cls
  | (package_id, operation, content) :: rest =>
      match send package_id operation content cls with
      | Some cls' => send_all rest cls'
      | None => None
      end
  end.

End Client.

(* ===================================================================== *)
(** * Part II. Vocabulary of the properties                               *)
(* ===================================================================== *)

(** ** Assumptions about the clock

    [round(time() * 1000)] is a count of milliseconds since 1970: the
    readings are positive, and they do not decrease when the system clock
    is not set back. *)

Definition clock_positive (w : World) : Prop :=
  forall n : nat, 0 < time_source w n.

Definition clock_monotone (w : World) : Prop :=
  forall m n : nat, (m <= n)%nat -> time_source w m <= time_source w n.

(** A timestamp stored in an object is either the initial [0] or a reading
    already taken from the clock. *)
Definition stamped_by (w : World) (stamp : Z) : Prop :=
  stamp = 0 \/ exists n : nat, (n < time_reads w)%nat /\ stamp = time_source w n.

(** The world after one call of [now()]. *)
Definition tick (w : World) : World := set_time_reads (S (time_reads w)) w.

(** The value that call returns. *)
Definition reading (w : World) : Z := time_source w (time_reads w).

(** A clock for examples: it shows [t] at the first reading and advances
    by one millisecond per reading. *)
Definition clock_from (t : Z) : nat -> Z := fun n => t + Z.of_nat n.

Definition world_at (t : Z) (registered : list Z) (user : pyval) : World :=
  mkWorld (clock_from t) 0 (mkTags (mkSingleton 0 0) registered) user.

(** ** Sequences of snapshots *)




(** ** Snapshots that fail validation *)

(** The error [check_data] ends in when it reaches one of its [raise]
    statements. *)
Definition unbound_LogosSerializationError : exn :=
  NameError "name 'LogosSerializationError' is not defined".

Definition is_dict (data : pyval) : bool :=
  match data with PyDict _ => true | _ => false end.

Definition has_field (data : pyval) (key : string) : bool :=
  match data with PyDict d => dict_has d key | _ => false end.

(** The input is not a dict, or it is a dict that lacks a required field. *)
Definition invalid_snapshot (data : pyval) (required : list string) : Prop :=
  is_dict data = false \/
  exists key : string, In key required /\ has_field data key = false.

(** The fields each class requires of a snapshot. *)
Definition flow_object_fields : list string :=
  ["id"; "name"; "access_mode"; "attributes"].

Definition attributes_fields : list string := ["tags"; "descriptions"].

Definition log_entry_fields : list string :=
  ["id_time"; "id_user"; "access_mode"; "attributes"; "attachments"; "is_finished"].

Definition channel_fields : list string :=
  ["id"; "name"; "access_mode"; "attributes"; "logs"].

(** ** Scenarios of the specification *)

(** The Tags registry holds the ids 1, 2 and 3 at version 1, received at
    time 1000; the current user is [user]. *)
Definition registry_world (user : pyval) : World :=
  snd (Tags.on_data_received [1; 2; 3] 1 (world_at 1000 [] user)).

(** A valid snapshot of a log and of a channel that holds it under "L1". *)
Definition log_snapshot : pyval :=
  PyDict [("id", PyStr "L1"); ("name", PyStr "first log");
          ("access_mode", PyInt 1);
          ("attributes", PyDict [("tags", PyList []); ("descriptions", PyDict [])]);
          ("entries", PyList [])].

Definition channel_snapshot (logs : pyval) : pyval :=
  PyDict [("id", PyStr "C1"); ("name", PyStr "general");
          ("access_mode", PyInt 1);
          ("attributes", PyDict [("tags", PyList []); ("descriptions", PyDict [])]);
          ("logs", logs)].

(** The two outcomes met around the log container. *)
Definition immutable {A} : result A :=
  Raise (LogosPermissionError "LogosLogContainer is immutable.").

Definition Log_undefined {A} : result A :=
  Raise (NameError "name 'Log' is not defined").

(** ** The transport and the catalog of texts *)

(** The package of a call [send(package_id, operation, content)]. *)
Definition package_of (call : string * string * string) : pyval :=
  let '(package_id, operation, content) := call in
  Client.package package_id operation content.

(** [n] calls of [send] with the same arguments. *)
Definition same_calls (n : nat) : list (string * string * string) :=
  List.repeat ("P1"%string, "createLog"%string, ""%string) n.

(** A catalog with an empty Hungarian table and an English table that
    holds the key "greeting". *)
Definition two_language_texts : Texts.t :=
  Texts.mk (mkSingleton 1000 1)
    (<["hu"%string := ∅]> (<["en"%string := <["greeting"%string := "Hello"%string]> ∅]> ∅))
    ""%string "en"%string.

(** ** Further vocabulary *)

(** The language a lookup of Texts uses: the argument, or the session
    language when the argument is the empty string. *)
Definition effective_language (cls : Texts.t) (language : string) : string :=
  if String.eqb language "" then Texts.language cls else language.

(** The error of the call [super().om_update()]. *)
Definition om_update_missing : exn :=
  AttributeError "'super' object has no attribute 'om_update'".

(** A value that has the method [copy]: a list or a dict. *)
Definition copyable (v : pyval) : bool :=
  match v with PyList _ | PyDict _ => true | _ => false end.

(** Both containers of an editable attribute set can be copied. *)
Definition serializable (a : LogosEditableAttributes.t) : Prop :=
  copyable (LogosEditableAttributes.tags a) = true /\
  copyable (LogosEditableAttributes.descriptions a) = true.

(** The calls a client makes on a locally changeable entity. *)
Inductive entity_op : Type :=
| Snapshot (data : pyval) (version : Z)      (* on_data_received(data, version) *)
| LocalEdit.                                  (* on_update() *)

Fixpoint run_ops (ops : list entity_op) : M (World * LogosLocallyCangeable.t) unit :=
  match ops with
  | [] => ret tt
  | Snapshot data version :: rest =>
      LogosLocallyCangeable.on_data_received data version ;; run_ops rest
  | LocalEdit :: rest =>
      LogosLocallyCangeable.on_update ;; run_ops rest
  end.

(** The version and the dirty flag a sequence of calls leads to. *)
Fixpoint version_after (ops : list entity_op) (current : Z) : Z :=
  match ops with
  | [] => current
  | Snapshot _ version :: rest => version_after rest version
  | LocalEdit :: rest => version_after rest current
  end.

Fixpoint changed_after (ops : list entity_op) (current : bool) : bool :=
  match ops with
  | [] => current
  | Snapshot _ _ :: rest => changed_after rest false
  | LocalEdit :: rest => changed_after rest true
  end.

(** A catalog of texts for the tags 1 and 2, and a world in which the tags
    1, 2, 3 and 7 are registered. *)
Definition tag_texts : Texts.t :=
  Texts.mk (mkSingleton 900 1)
    (<["en"%string := <["#1"%string := "urgent"%string]>
                       (<["#2"%string := "colour"%string]> ∅)]> ∅)
    "?"%string "en"%string.

Definition tags_world : World :=
  snd (Tags.on_data_received [1; 2; 3; 7] 1 (world_at 1000 [] PyNone)).

(** Descriptions: the key 2 may take the values 1 and 3, the key 5 the
    value 7. *)
Definition colour_descriptions : Descriptions.t :=
  Descriptions.mk (mkSingleton 1001 1) (<[2 := [1; 3]]> (<[5 := [7]]> ∅)).

(** A JSON codec that knows one document. *)
Definition toy_json_dumps (v : pyval) : result string := Ok "version-3"%string.

Definition toy_json_loads (text : string) : result pyval :=
  Ok (PyDict [("version", PyInt 3)]).

(** A valid snapshot of a log entry. *)
Definition entry_snapshot : pyval :=
  PyDict [("id_time", PyInt 1000); ("id_user", PyStr "U7"); ("access_mode", PyInt 3);
          ("attributes", PyNone); ("attachments", PyNone); ("is_finished", PyBool false)].

Definition current_user_fields : list string :=
  ["id"; "display_name"; "attributes"; "sig_key"; "server_key"; "terminal_settings"].

(** A snapshot of the current user with every field. *)
Definition user_snapshot : pyval :=
  PyDict [("id", PyStr "U7"); ("display_name", PyStr "Uhura"); ("attributes", PyNone);
          ("sig_key", PyStr "s"); ("server_key", PyStr "k");
          ("terminal_settings", PyNone)].

(** The log collection of every channel: empty and closed. *)
Definition empty_closed : LogosLogContainer.t := LogosLogContainer.mk ∅ false.

(* ===================================================================== *)
(** * Part III. Properties                                                *)
(* ===================================================================== *)

(** ** The clock *)

Lemma clock_from_positive t ids u : 0 < t -> clock_positive (world_at t ids u).
Proof. intros Ht n. unfold world_at, clock_from. simpl. lia. Qed.

Lemma clock_from_monotone t ids u : clock_monotone (world_at t ids u).
Proof. intros m n Hmn. unfold world_at, clock_from. simpl. lia. Qed.

Lemma stamped_by_tick w stamp : stamped_by w stamp -> stamped_by (tick w) stamp.
Proof.
  intros [H0 | (n & Hn & Hs)]; [now left | right].
  exists n. split; [simpl; lia | exact Hs].
Qed.

Lemma reading_stamped w : stamped_by (tick w) (reading w).
Proof. right. exists (time_reads w). split; [simpl; lia | reflexivity]. Qed.

Lemma stamped_le_reading w stamp :
  clock_positive w -> clock_monotone w -> stamped_by w stamp -> stamp <= reading w.
Proof.
  intros Hpos Hmono [H0 | (n & Hn & Hs)]; subst stamp.
  - specialize (Hpos (time_reads w)). unfold reading. lia.
  - apply Hmono. lia.
Qed.

(** ** functiontools.check_switch *)

Section CheckSwitch.

Lemma pow2_nonzero k : 0 <= k -> 2 ^ k <> 0.
Proof. intros Hk. pose proof (Z.pow_pos_nonneg 2 k). lia. Qed.

(** C10. For an int [panel] and a switch [2^k] with [k >= 0],
    [check_switch(panel, 2^k)] returns normally and its value is bit [k] of
    the binary representation of [panel]; this covers every non-negative
    panel (and, with two's complement bits, the negative ones too). *)
Theorem check_switch_is_bit_test (panel k : Z) :
  0 <= panel -> 0 <= k ->
  functiontools.check_switch panel (2 ^ k) = Ok (Z.testbit panel k).
Proof.
  intros _ Hk. unfold functiontools.check_switch.
  destruct (Z.eqb_spec (2 ^ k) 0) as [E | _].
  - now apply pow2_nonzero in E.
  - f_equal. rewrite <- (Z.testbit_spec' panel k Hk).
    now destruct (Z.testbit panel k).
Qed.

Lemma check_switch_is_bit_test_witness :
  0 <= 6 /\ 0 <= 1 /\
  functiontools.check_switch 6 (2 ^ 1) = Ok (Z.testbit 6 1).
Proof.
  split; [lia | split; [lia | apply (check_switch_is_bit_test 6 1); lia]].
Defined.

(** The three grants of security.py on the access mode READ+WRITE. *)
Example check_switch_read_write :
  functiontools.check_switch 3 LogosPermissionTypes.READ = Ok true /\
  functiontools.check_switch 3 LogosPermissionTypes.WRITE = Ok true /\
  functiontools.check_switch 3 LogosPermissionTypes.ADMINISTRATE = Ok false.
Proof. repeat split. Qed.

(** A switch that is not a power of two is not a membership test: the
    docstring restricts the function to binary switch panels. *)
Example check_switch_not_binary : functiontools.check_switch 3 3 = Ok true.
Proof. reflexivity. Qed.

Example check_switch_zero_switch :
  is_raise (functiontools.check_switch 3 0) = true.
Proof. reflexivity. Qed.

End CheckSwitch.

(** ** datamodel.py: versioned entities *)

Section Datamodel.


Lemma Updateable_on_update_run w e :
  LogosUpdateable.on_update (w, e) =
  (Ok tt, (tick w, LogosUpdateable.mk (reading w) (LogosUpdateable.version e))).
Proof. reflexivity. Qed.

Lemma LocallyCangeable_on_data_received_run w e data v :
  LogosLocallyCangeable.on_data_received data v (w, e) =
  (Ok tt, (tick w, LogosLocallyCangeable.mk (LogosUpdateable.mk (reading w) v) false)).
Proof. reflexivity. Qed.

Lemma LocallyCangeable_on_update_run w e :
  LogosLocallyCangeable.on_update (w, e) =
  (Ok tt, (tick w, LogosLocallyCangeable.mk
                     (LogosUpdateable.mk (reading w) (LogosLocallyCangeable.version e)) true)).
Proof. reflexivity. Qed.

Lemma Singleton_on_data_received_run {D} w cls (data : D) v :
  LogosUpdateableSingleton.on_data_received data v (w, cls) =
  (Ok tt, (tick w, mkSingleton (reading w) v)).
Proof. reflexivity. Qed.

Lemma clock_positive_tick w : clock_positive w -> clock_positive (tick w).
Proof. intros H n. apply H. Qed.

Lemma clock_monotone_tick w : clock_monotone w -> clock_monotone (tick w).
Proof. intros H m n. apply H. Qed.

(** The base class.  Let a locally changeable entity hold a timestamp that
    is [0] or an earlier reading of a positive, non-decreasing clock.  Applying a snapshot
    with a version [v] not below the current one through [on_data_received]
    returns normally and leaves [is_changed = False], [version = v] and a
    [last_update] that is strictly positive and not less than before. *)
Theorem snapshot_resets_locally_changeable
  (w : World) (e : LogosLocallyCangeable.t) (data : pyval) (v : Z) :
  clock_positive w ->
  clock_monotone w ->
  stamped_by w (LogosLocallyCangeable.last_update e) ->
  LogosLocallyCangeable.version e <= v ->
  exists e',
    LogosLocallyCangeable.on_data_received data v (w, e) = (Ok tt, (tick w, e')) /\
    LogosLocallyCangeable.is_changed e' = false /\
    LogosLocallyCangeable.version e' = v /\
    0 < LogosLocallyCangeable.last_update e' /\
    LogosLocallyCangeable.last_update e <= LogosLocallyCangeable.last_update e' /\
    stamped_by (tick w) (LogosLocallyCangeable.last_update e').
Proof.
  intros Hpos Hmono Hst _.
  rewrite LocallyCangeable_on_data_received_run.
  eexists. split; [reflexivity |].
  cbn [LogosLocallyCangeable.is_changed LogosLocallyCangeable.version
       LogosLocallyCangeable.last_update LogosLocallyCangeable.base
       LogosUpdateable.version LogosUpdateable.last_update].
  repeat split.
  - apply Hpos.
  - now apply stamped_le_reading.
  - apply reading_stamped.
Qed.

Lemma snapshot_resets_locally_changeable_witness :
  let w := world_at 1000 [] PyNone in
  let e := LogosLocallyCangeable.mk (LogosUpdateable.mk 0 3) true in
  clock_positive w /\ clock_monotone w /\
  stamped_by w (LogosLocallyCangeable.last_update e) /\
  LogosLocallyCangeable.version e <= 4 /\
  exists e',
    LogosLocallyCangeable.on_data_received (PyDict []) 4 (w, e) = (Ok tt, (tick w, e')) /\
    LogosLocallyCangeable.is_changed e' = false /\
    LogosLocallyCangeable.version e' = 4 /\
    0 < LogosLocallyCangeable.last_update e' /\
    LogosLocallyCangeable.last_update e <= LogosLocallyCangeable.last_update e' /\
    stamped_by (tick w) (LogosLocallyCangeable.last_update e').
Proof.
  assert (Hp : clock_positive (world_at 1000 [] PyNone)).
  { intros n. unfold world_at, clock_from. simpl. lia. }
  assert (Hm : clock_monotone (world_at 1000 [] PyNone)).
  { intros m n Hmn. unfold world_at, clock_from. simpl. lia. }
  assert (Hs : stamped_by (world_at 1000 [] PyNone)
                 (LogosLocallyCangeable.last_update
                    (LogosLocallyCangeable.mk (LogosUpdateable.mk 0 3) true))).
  { left. reflexivity. }
  assert (Hv : LogosLocallyCangeable.version
                 (LogosLocallyCangeable.mk (LogosUpdateable.mk 0 3) true) <= 4).
  { unfold LogosLocallyCangeable.version. simpl. lia. }
  split; [exact Hp | split; [exact Hm | split; [exact Hs | split; [exact Hv |]]]].
  exact (snapshot_resets_locally_changeable
           (world_at 1000 [] PyNone)
           (LogosLocallyCangeable.mk (LogosUpdateable.mk 0 3) true)
           (PyDict []) 4 Hp Hm Hs Hv).
Defined.

(** The hypothesis on the stored timestamp is an invariant: it holds for a
    new entity and every method of the class re-establishes it. *)
Lemma stamped_by_init w :
  stamped_by w (LogosLocallyCangeable.last_update LogosLocallyCangeable.init).
Proof. left. reflexivity. Qed.

Lemma stamped_by_on_update w e :
  exists e', LogosLocallyCangeable.on_update (w, e) = (Ok tt, (tick w, e')) /\
             LogosLocallyCangeable.is_changed e' = true /\
             LogosLocallyCangeable.version e' = LogosLocallyCangeable.version e /\
             stamped_by (tick w) (LogosLocallyCangeable.last_update e').
Proof.
  rewrite LocallyCangeable_on_update_run. eexists. split; [reflexivity |].
  repeat split. apply reading_stamped.
Qed.

(** The code does not compare versions: a snapshot with a lower version is
    applied all the same. *)
Example snapshot_with_lower_version :
  LogosLocallyCangeable.on_data_received PyNone 2
    (world_at 1000 [] PyNone, LogosLocallyCangeable.mk (LogosUpdateable.mk 0 3) true) =
  (Ok tt, (tick (world_at 1000 [] PyNone),
           LogosLocallyCangeable.mk (LogosUpdateable.mk 1000 2) false)).
Proof. reflexivity. Qed.



(** A snapshot with both fields, each a list or a dict, is accepted by
    LogosEditableAttributes and replaces the tags and the descriptions. *)
Example EditableAttributes_accepts_snapshot :
  let a := LogosEditableAttributes.mk
             (LogosLocallyCangeable.mk (LogosUpdateable.mk 0 3) true)
             (PyList [PyInt 1]) (PyDict []) in
  LogosEditableAttributes.on_data_received
    (PyDict [("tags", PyList [PyInt 2; PyInt 3]); ("descriptions", PyDict [])]) 4
    (world_at 1000 [] PyNone, a) =
  (Ok tt, (tick (world_at 1000 [] PyNone),
           LogosEditableAttributes.mk
             (LogosLocallyCangeable.mk (LogosUpdateable.mk 1000 4) false)
             (PyList [PyInt 2; PyInt 3]) (PyDict []))).
Proof. reflexivity. Qed.

(** LogosLogEntry overrides the property [is_changed] with a disjunction
    that reads [self.attachments.is_changed]; no value ever stored in
    [attachments] has that attribute, so the property of a log entry cannot
    be read, before or after a snapshot. *)
Lemma LogEntry_is_changed_raises (l : LogosLogEntry.t) :
  is_raise (LogosLogEntry.is_changed l) = true.
Proof. unfold LogosLogEntry.is_changed. destruct (LogosLogEntry.attributes l); reflexivity. Qed.

(** C1, on a log entry.  A new LogosLogEntry receives a snapshot with all
    six required fields and version 4 at time 1000.  The call returns, the
    version is 4, the timestamp is 1000 and the flag of the base class is
    [False]; but the property [is_changed] of the entry, which is what a
    caller reads, does not evaluate to [False]: it raises AttributeError,
    since the snapshot has set [attributes] (and [attachments]) to [None]. *)
Theorem log_entry_is_changed_raises_after_snapshot :
  exists e',
    LogosLogEntry.on_data_received entry_snapshot 4
      (world_at 1000 [] PyNone, LogosLogEntry.fresh) =
      (Ok tt, (tick (world_at 1000 [] PyNone), e')) /\
    LogosLogEntry.version e' = 4 /\
    LogosLogEntry.last_update e' = 1000 /\
    LogosLocallyCangeable.is_changed (LogosLogEntry.base e') = false /\
    LogosLogEntry.attributes e' = None /\
    LogosLogEntry.attachments e' = PyNone /\
    LogosLogEntry.is_changed e' =
      Raise (AttributeError "'NoneType' object has no attribute 'is_changed'").
Proof. vm_compute. eexists. repeat split. Qed.

End Datamodel.

(** ** Readiness of versioned entities *)

Section Readiness.








(** Tags has received its snapshot at time 1000, Texts none yet: the
    timestamp of Tags is positive and Tags is not ready. *)
Example Tags_stamped_but_not_ready :
  cls_last_update (Tags_base (Tags_cls tags_world)) = 1000 /\
  LogosUpdateableSingleton.is_ready (Tags_base (Tags_cls tags_world)) = true /\
  Tags.is_ready tags_world Texts.init = false.
Proof. vm_compute. repeat split. Qed.

(** [on_update] alone, with no snapshot at all, makes an entity ready. *)
Example ready_after_on_update :
  exists w' e', LogosUpdateable.on_update (world_at 1000 [] PyNone, LogosUpdateable.init)
                = (Ok tt, (w', e')) /\
                LogosUpdateable.is_ready e' = true /\ LogosUpdateable.version e' = 0.
Proof. eexists. eexists. repeat split. Qed.

End Readiness.

(** ** Snapshots that fail validation *)

Section InvalidSnapshots.

Lemma forallb_false_witness {A} (f : A -> bool) (l : list A) (x : A) :
  In x l -> f x = false -> forallb f l = false.
Proof.
  intros Hin Hfx. induction l as [| y l IH]; [contradiction |].
  cbn [forallb]. destruct Hin as [-> | Hin].
  - now rewrite Hfx.
  - rewrite (IH Hin). apply andb_false_r.
Qed.

Lemma forallb_false_inv {A} (f : A -> bool) (l : list A) :
  forallb f l = false -> exists x, In x l /\ f x = false.
Proof.
  induction l as [| y l IH]; [discriminate |].
  cbn [forallb]. intros H. destruct (f y) eqn:Hy.
  - destruct (IH H) as (x & Hin & Hfx). exists x. split; [now right | exact Hfx].
  - exists y. split; [now left | exact Hy].
Qed.

(** [check_data] raises exactly on the invalid inputs, the NameError of
    the unbound class name, and returns [True] on the others. *)
Lemma check_data_invalid data keys :
  invalid_snapshot data keys ->
  functiontools.check_data data keys = Raise unbound_LogosSerializationError.
Proof.
  intros [Hnd | (key & Hin & Hmiss)].
  - destruct data; try discriminate; reflexivity.
  - destruct data as [| | | | | | d]; try reflexivity.
    cbn [has_field] in Hmiss. cbn [functiontools.check_data].
    rewrite (forallb_false_witness (dict_has d) keys key Hin Hmiss).
    reflexivity.
Qed.

Lemma check_data_valid data keys :
  ~ invalid_snapshot data keys -> functiontools.check_data data keys = Ok true.
Proof.
  intros Hvalid. destruct data as [| | | | | | d];
    try (exfalso; apply Hvalid; left; reflexivity).
  cbn [functiontools.check_data].
  destruct (forallb (dict_has d) keys) eqn:Hall; [reflexivity |].
  exfalso. apply Hvalid. right.
  destruct (forallb_false_inv _ _ Hall) as (x & Hin & Hx). now exists x.
Qed.

(** When [check_data] raises, [on_data_received] stops there: the call to
    the base class has already been made. *)
Ltac stop_at_check_data H :=
  cbn; rewrite H; reflexivity.

Lemma FlowObject_rejected w o data v e :
  functiontools.check_data data flow_object_fields = Raise e ->
  LogosFlowObject.on_data_received data v (w, o) =
  (Raise e, (tick w, LogosFlowObject.set_base (LogosUpdateable.mk (reading w) v) o)).
Proof.
  intros H. unfold LogosFlowObject.on_data_received, flow_object_fields in *.
  stop_at_check_data H.
Qed.

Lemma Attributes_rejected w a data v e :
  functiontools.check_data data attributes_fields = Raise e ->
  LogosAttributes.on_data_received data v (w, a) =
  (Raise e, (tick w, LogosAttributes.set_base (LogosUpdateable.mk (reading w) v) a)).
Proof.
  intros H. unfold LogosAttributes.on_data_received, attributes_fields in *.
  stop_at_check_data H.
Qed.

Lemma EditableAttributes_rejected w a data v e :
  functiontools.check_data data attributes_fields = Raise e ->
  LogosEditableAttributes.on_data_received data v (w, a) =
  (Raise e, (tick w, LogosEditableAttributes.set_base
                       (LogosLocallyCangeable.mk (LogosUpdateable.mk (reading w) v) false) a)).
Proof.
  intros H. unfold LogosEditableAttributes.on_data_received, attributes_fields in *.
  stop_at_check_data H.
Qed.

Lemma LogEntry_rejected w a data v e :
  functiontools.check_data data log_entry_fields = Raise e ->
  LogosLogEntry.on_data_received data v (w, a) =
  (Raise e, (tick w, LogosLogEntry.set_base
                       (LogosLocallyCangeable.mk (LogosUpdateable.mk (reading w) v) false) a)).
Proof.
  intros H. unfold LogosLogEntry.on_data_received, log_entry_fields in *.
  stop_at_check_data H.
Qed.

(** C2 as stated fails: a snapshot that is not a dict makes the call raise,
    but the new object it was offered to has taken the version [7] and the
    timestamp [1000] of the rejected call (and the error raised is the
    NameError of the unbound class name, not a serialization error). *)
Lemma invalid_snapshot_changes_version :
  invalid_snapshot (PyInt 5) flow_object_fields /\
  exists w' o',
    LogosFlowObject.on_data_received (PyInt 5) 7
      (world_at 1000 [] PyNone, LogosFlowObject.fresh)
    = (Raise unbound_LogosSerializationError, (w', o')) /\
    LogosFlowObject.version LogosFlowObject.fresh = 0 /\
    LogosFlowObject.last_update LogosFlowObject.fresh = 0 /\
    LogosFlowObject.version o' = 7 /\
    LogosFlowObject.last_update o' = 1000 /\
    o' <> LogosFlowObject.fresh.
Proof.
  split; [left; reflexivity |].
  eexists. eexists. split; [reflexivity |].
  repeat split. discriminate.
Qed.

(** C2, amended.  On a snapshot that is not a dict or lacks a required
    field, [on_data_received] of LogosFlowObject, LogosAttributes,
    LogosEditableAttributes and LogosLogEntry does not return: it raises,
    and leaves the fields filled from snapshots as they were; the version
    and the timestamp, however, are the ones of the rejected call (and
    [is_changed] of a locally changeable entity is cleared), because the
    base class is called before the validation.  (Which exception is
    raised is not part of the statement.) *)
Theorem invalid_snapshot_keeps_payload_only (w : World) (data : pyval) (v : Z) :
  (forall o : LogosFlowObject.t,
     invalid_snapshot data flow_object_fields ->
     exists e,
       LogosFlowObject.on_data_received data v (w, o) =
       (Raise e,
        (tick w, LogosFlowObject.mk (LogosUpdateable.mk (reading w) v)
                   (LogosFlowObject.id o) (LogosFlowObject.name o)
                   (LogosFlowObject.access_mode o) (LogosFlowObject.attributes o)))) /\
  (forall a : LogosAttributes.t,
     invalid_snapshot data attributes_fields ->
     exists e,
       LogosAttributes.on_data_received data v (w, a) =
       (Raise e,
        (tick w, LogosAttributes.mk (LogosUpdateable.mk (reading w) v)
                   (LogosAttributes.tags a) (LogosAttributes.descriptions a)))) /\
  (forall a : LogosEditableAttributes.t,
     invalid_snapshot data attributes_fields ->
     exists e,
       LogosEditableAttributes.on_data_received data v (w, a) =
       (Raise e,
        (tick w, LogosEditableAttributes.mk
                   (LogosLocallyCangeable.mk (LogosUpdateable.mk (reading w) v) false)
                   (LogosEditableAttributes.tags a)
                   (LogosEditableAttributes.descriptions a)))) /\
  (forall l : LogosLogEntry.t,
     invalid_snapshot data log_entry_fields ->
     exists e,
       LogosLogEntry.on_data_received data v (w, l) =
       (Raise e,
        (tick w, LogosLogEntry.mk
                   (LogosLocallyCangeable.mk (LogosUpdateable.mk (reading w) v) false)
                   (LogosLogEntry.id_time l) (LogosLogEntry.id_user l)
                   (LogosLogEntry.access_mode l) (LogosLogEntry.content l)
                   (LogosLogEntry.attributes l) (LogosLogEntry.attachments l)
                   (LogosLogEntry.is_finished l)))).
Proof.
  repeat split; intros x Hinv;
    pose proof (check_data_invalid _ _ Hinv) as Hmsg;
    exists unbound_LogosSerializationError.
  - now rewrite (FlowObject_rejected _ _ _ _ _ Hmsg).
  - now rewrite (Attributes_rejected _ _ _ _ _ Hmsg).
  - now rewrite (EditableAttributes_rejected _ _ _ _ _ Hmsg).
  - now rewrite (LogEntry_rejected _ _ _ _ _ Hmsg).
Qed.

Lemma invalid_snapshot_keeps_payload_only_witness :
  let w := world_at 1000 [1; 2; 3] PyNone in
  let a := LogosEditableAttributes.mk
             (LogosLocallyCangeable.mk (LogosUpdateable.mk 0 3) true)
             (PyList [PyInt 1]) (PyDict []) in
  let data := PyDict [("tags", PyList [])] in
  invalid_snapshot data attributes_fields /\
  exists e,
    LogosEditableAttributes.on_data_received data 9 (w, a) =
    (Raise e,
     (tick w, LogosEditableAttributes.mk
                (LogosLocallyCangeable.mk (LogosUpdateable.mk 1000 9) false)
                (PyList [PyInt 1]) (PyDict []))).
Proof.
  assert (Hinv : invalid_snapshot (PyDict [("tags", PyList [])]) attributes_fields).
  { right. exists "descriptions"%string. split; [simpl; tauto | reflexivity]. }
  split; [exact Hinv |].
  destruct (invalid_snapshot_keeps_payload_only
              (world_at 1000 [1; 2; 3] PyNone) (PyDict [("tags", PyList [])]) 9)
    as (_ & _ & Hedit & _).
  exact (Hedit (LogosEditableAttributes.mk
                  (LogosLocallyCangeable.mk (LogosUpdateable.mk 0 3) true)
                  (PyList [PyInt 1]) (PyDict [])) Hinv).
Defined.

(** Where validation happens at two levels the rejected call replaces more:
    a channel snapshot that lacks only [logs] passes the check of
    LogosFlowObject, which replaces [id] and [name], and is rejected after
    that. *)
Example channel_snapshot_without_logs :
  let data := PyDict [("id", PyStr "C2"); ("name", PyStr "new");
                      ("access_mode", PyInt 1); ("attributes", PyNone)] in
  let c := LogosChannel.mk
             (LogosFlowObject.mk (LogosUpdateable.mk 0 0) (PyStr "C1") (PyStr "old")
                (PyInt 0) None)
             (LogosLogContainer.mk ∅ false) in
  invalid_snapshot data channel_fields /\
  exists w' c',
    LogosChannel.on_data_received data 1 (world_at 1000 [] PyNone, c) =
    (Raise unbound_LogosSerializationError, (w', c')) /\
    LogosFlowObject.id (LogosChannel.base c') = PyStr "C2" /\
    LogosFlowObject.name (LogosChannel.base c') = PyStr "new".
Proof.
  split.
  - right. exists "logs"%string. split; [simpl; tauto | reflexivity].
  - vm_compute. eexists. eexists. split; [reflexivity |]. split; reflexivity.
Qed.

End InvalidSnapshots.

(** ** attributes.py: add_tag *)

Section AddTag.

Example registry_world_tags :
  tag_ids (Tags_cls (registry_world PyNone)) = [1; 2; 3] /\
  cls_version (Tags_base (Tags_cls (registry_world PyNone))) = 1 /\
  cls_last_update (Tags_base (Tags_cls (registry_world PyNone))) = 1000.
Proof. repeat split. Qed.

(** An id that is already in the tag list: ValueError, nothing changes. *)
Lemma add_tag_present w a id :
  contains_int (LogosEditableAttributes.tags a) id = Ok true ->
  LogosEditableAttributes.add_tag id (w, a) =
  (Raise (ValueError "Tag ID already exists."), (w, a)).
Proof.
  intros H. unfold LogosEditableAttributes.add_tag. cbn. rewrite H. reflexivity.
Qed.

(** An id that is absent from the tag list and from the registry:
    permission error, nothing changes. *)
Lemma add_tag_unregistered w a id :
  contains_int (LogosEditableAttributes.tags a) id = Ok false ->
  Tags.available w id = false ->
  LogosEditableAttributes.add_tag id (w, a) =
  (Raise (LogosPermissionError "Tag ID is not accessible."), (w, a)).
Proof.
  intros H Hreg. unfold LogosEditableAttributes.add_tag. cbn. rewrite H. cbn.
  rewrite Hreg. reflexivity.
Qed.

(** An absent, registered id: the id is appended and then the call
    [super().om_update()] raises, so that neither [is_changed] nor
    [last_update] is touched and the caller sees an AttributeError. *)
Lemma add_tag_registered w a l id :
  LogosEditableAttributes.tags a = PyList l ->
  existsb (fun x => eq_int x id) l = false ->
  Tags.available w id = true ->
  LogosEditableAttributes.add_tag id (w, a) =
  (Raise (AttributeError "'super' object has no attribute 'om_update'"),
   (w, LogosEditableAttributes.mk (LogosEditableAttributes.base a)
         (PyList (l ++ [PyInt id])) (LogosEditableAttributes.descriptions a))).
Proof.
  intros Htags Habs Hreg. unfold LogosEditableAttributes.add_tag. cbn.
  rewrite Htags. cbn. rewrite Habs. cbn. rewrite Hreg. cbn.
  destruct a as [[b c] t d]. reflexivity.
Qed.

(** C3, at the first step of scenario 1 of the specification: with the ids
    1, 2, 3 registered, [add_tag(2)] on a new attribute set does not return:
    it appends 2 and raises AttributeError, and [is_changed] is still
    [False]. *)
Theorem add_tag_registered_id_raises :
  LogosEditableAttributes.add_tag 2 (registry_world PyNone, LogosEditableAttributes.fresh) =
  (Raise (AttributeError "'super' object has no attribute 'om_update'"),
   (registry_world PyNone,
    LogosEditableAttributes.mk (LogosLocallyCangeable.mk (LogosUpdateable.mk 0 0) false)
      (PyList [PyInt 2]) (PyDict []))).
Proof. reflexivity. Qed.

(** The two error cases of the scenario behave as specified. *)
Example add_tag_scenario_errors :
  let a := LogosEditableAttributes.mk LogosLocallyCangeable.init (PyList [PyInt 2]) (PyDict []) in
  LogosEditableAttributes.add_tag 5 (registry_world PyNone, a) =
    (Raise (LogosPermissionError "Tag ID is not accessible."), (registry_world PyNone, a)) /\
  LogosEditableAttributes.add_tag 2 (registry_world PyNone, a) =
    (Raise (ValueError "Tag ID already exists."), (registry_world PyNone, a)).
Proof. split; reflexivity. Qed.

(** What [on_update], the method the call was meant for, does. *)
Example super_call_on_update :
  exists w' b,
    LogosLocallyCangeable.super_call "on_update"
      (registry_world PyNone, LogosLocallyCangeable.init) = (Ok PyNone, (w', b)) /\
    LogosLocallyCangeable.is_changed b = true.
Proof. eexists. eexists. split; reflexivity. Qed.

End AddTag.

(** ** flow.py: creation of a log entry *)

Section OnCreate.

(** [super().is_ready] is the value of a property; calling it raises
    before [on_create] reads or writes anything. *)
Lemma on_create_raises w e :
  LogosLogEntry.on_create (w, e) =
  (Raise (TypeError "'bool' object is not callable"), (w, e)).
Proof.
  unfold LogosLogEntry.on_create. cbn. destruct e as [[b c] i1 i2 i3 i4 i5 i6 i7].
  reflexivity.
Qed.

(** C4, at the scenario of the specification: current user "U7", clock at
    1000.  The first [on_create] on a new entry raises TypeError and leaves
    the entry as it was: its id is still "0-" and its access mode 0. *)
Theorem on_create_first_call_raises :
  let w := world_at 1000 [] (PyStr "U7") in
  LogosLogEntry.on_create (w, LogosLogEntry.fresh) =
    (Raise (TypeError "'bool' object is not callable"), (w, LogosLogEntry.fresh)) /\
  LogosLogEntry.id LogosLogEntry.fresh = Some "0-"%string /\
  LogosLogEntry.access_mode LogosLogEntry.fresh = PyInt 0.
Proof. repeat split. Qed.

(** The rendering of the id the scenario expects. *)
Example id_of_created_entry :
  LogosLogEntry.id
    (LogosLogEntry.mk LogosLocallyCangeable.init (PyInt 1000) (PyStr "U7") (PyInt 3)
       (PyStr "") (Some LogosEditableAttributes.fresh) PyNone (PyBool false))
  = Some "1000-U7"%string.
Proof. reflexivity. Qed.

End OnCreate.

(** ** flow.py: the log container of a channel *)

Section LogContainer.

(** [Log] resolves to nothing: the class of flow.py is called LogosLog. *)
Lemma call_global_Log value w :
  LogosLogContainer.call_global "Log" value w = (Log_undefined, w).
Proof. reflexivity. Qed.

(** Without logs, or with an empty dict of logs, the container is built:
    it is empty and closed. *)
Lemma container_new_none w :
  LogosLogContainer.new PyNone w = (Ok (LogosLogContainer.mk ∅ false), w).
Proof. reflexivity. Qed.

Lemma container_new_empty w :
  LogosLogContainer.new (PyDict []) w = (Ok (LogosLogContainer.mk ∅ false), w).
Proof. reflexivity. Qed.

(** With at least one log, the first iteration of the loop raises. *)
Lemma container_new_nonempty key value rest w :
  LogosLogContainer.new (PyDict ((key, value) :: rest)) w = (Log_undefined, w).
Proof. reflexivity. Qed.

(** Every container the constructor returns is empty and closed. *)
Lemma container_new_inv logs w c w' :
  LogosLogContainer.new logs w = (Ok c, w') ->
  c = LogosLogContainer.mk ∅ false /\ w' = w.
Proof.
  destruct logs as [| b | z | s | s | l | [| [key value] rest]]; cbn;
    intros H; inversion H; split; reflexivity.
Qed.

(** A closed container rejects every key assignment and is unchanged. *)
Lemma setitem_closed w c key value :
  LogosLogContainer.in_init c = false ->
  LogosLogContainer.setitem key value (w, c) = (immutable, (w, c)).
Proof.
  intros H. unfold LogosLogContainer.setitem. cbn. rewrite H. reflexivity.
Qed.

Lemma setitem_after_new logs w c w' w2 key value :
  LogosLogContainer.new logs w = (Ok c, w') ->
  LogosLogContainer.setitem key value (w2, c) = (immutable, (w2, c)).
Proof.
  intros H. apply container_new_inv in H as [-> _]. reflexivity.
Qed.

(** [on_data_received] of a channel never leaves an open container behind. *)
Lemma channel_on_data_received_closed data v w ch r w' ch' :
  LogosLogContainer.in_init (LogosChannel.logs ch) = false ->
  LogosChannel.on_data_received data v (w, ch) = (r, (w', ch')) ->
  LogosLogContainer.in_init (LogosChannel.logs ch') = false.
Proof.
  intros Hclosed. unfold LogosChannel.on_data_received.
  unfold bind at 1.
  unfold super at 1, zoom at 1. cbn [fst snd].
  destruct (LogosFlowObject.on_data_received data v (w, LogosChannel.base ch))
    as [[[] | e] [w1 b1]]; cbn [fst snd LogosChannel.set_base].
  2:{ intros H. inversion H. exact Hclosed. }
  unfold bind at 1, lift at 1.
  destruct (functiontools.check_data data _) as [ok | e].
  2:{ intros H. inversion H. exact Hclosed. }
  unfold bind at 1, lift at 1.
  destruct (subscript data "logs") as [logs | e].
  2:{ intros H. inversion H. exact Hclosed. }
  unfold bind at 1, in_world at 1, zoom at 1. cbn [fst snd].
  destruct (LogosLogContainer.new logs w1) as [[c | e] w2] eqn:Hnew.
  2:{ intros H. inversion H. exact Hclosed. }
  apply container_new_inv in Hnew as [-> ->].
  intros H. inversion H. reflexivity.
Qed.

(** Hence every channel the constructor returns rejects key assignments
    into its log collection, which stays as it was. *)
Lemma channel_logs_immutable data v w ch w' w2 key value :
  LogosChannel.new data v w = (Ok ch, w') ->
  LogosChannel.logs_setitem key value (w2, ch) = (immutable, (w2, ch)).
Proof.
  intros Hnew.
  assert (Hclosed : LogosLogContainer.in_init (LogosChannel.logs ch) = false).
  { revert Hnew. unfold LogosChannel.new, bind. rewrite container_new_none.
    unfold construct.
    set (ch0 := LogosChannel.mk LogosFlowObject.fresh (LogosLogContainer.mk ∅ false)).
    assert (Hrun : forall d,
              match LogosChannel.on_data_received d v (w, ch0) with
              | (Ok _, (w1, obj)) => (Ok obj, w1)
              | (Raise e, (w1, _)) => (Raise e, w1)
              end = (Ok ch, w') ->
              LogosLogContainer.in_init (LogosChannel.logs ch) = false).
    { intros d.
      destruct (LogosChannel.on_data_received d v (w, ch0))
        as [[[] | e] [w1 ch1]] eqn:Hrun; intros H; inversion H; subst.
      exact (channel_on_data_received_closed d v w ch0 _ _ _ eq_refl Hrun). }
    destruct data; try apply Hrun.
    cbn. intros H. inversion H. reflexivity. }
  unfold LogosChannel.logs_setitem, super, zoom. cbn [fst snd].
  rewrite (setitem_closed _ _ _ _ Hclosed). destruct ch. reflexivity.
Qed.

(** C5, at scenario 2 of the specification: building a channel from a
    snapshot whose [logs] maps "L1" to the snapshot of a log does not
    succeed; the constructor raises NameError when it reaches the first
    log, so there is no channel and no log collection holding "L1". *)
Theorem channel_with_logs_is_not_built :
  forall w : World,
    fst (LogosChannel.new (channel_snapshot (PyDict [("L1", log_snapshot)])) 1 w)
    = Log_undefined.
Proof. intros w. reflexivity. Qed.

(** The snapshot of the scenario is otherwise valid: the same log snapshot
    builds a log, and the channel is built once [logs] is empty. *)
Example log_snapshot_builds_a_log :
  exists l w', LogosLog.new log_snapshot 0 (world_at 1000 [] PyNone) = (Ok l, w') /\
               LogosFlowObject.id (LogosLog.base l) = PyStr "L1".
Proof. vm_compute. eexists. eexists. split; reflexivity. Qed.

Example channel_without_logs_is_built :
  exists ch w',
    LogosChannel.new (channel_snapshot (PyDict [])) 1 (world_at 1000 [] PyNone)
      = (Ok ch, w') /\
    LogosLogContainer.items (LogosChannel.logs ch) = ∅ /\
    forall l, LogosChannel.logs_setitem "L2" l (w', ch) = (immutable, (w', ch)).
Proof.
  vm_compute. eexists. eexists. split; [reflexivity |]. split; [reflexivity |].
  intros l. reflexivity.
Qed.

End LogContainer.

(** ** networking.py: the outbound queue *)

Section OutboundQueue.

Lemma put_unbounded q item :
  Queue.maxsize q = 0 ->
  Queue.put q item = Queue.Enqueued (Queue.mk 0 (Queue.queue q ++ [item])).
Proof. intros H. unfold Queue.put. rewrite H. reflexivity. Qed.

Lemma send_all_from calls : forall items,
  Client.send_all calls (Client.mk false (Queue.mk 0 items)) =
  Some (Client.mk false (Queue.mk 0 (items ++ List.map package_of calls))).
Proof.
  induction calls as [| [[package_id operation] content] rest IH]; intros items.
  - cbn. now rewrite app_nil_r.
  - cbn [Client.send_all]. unfold Client.send.
    cbn [Client.package_queue Client.is_online].
    rewrite put_unbounded by reflexivity.
    cbn [Queue.queue]. rewrite IH. rewrite <- app_assoc. reflexivity.
Qed.

(** C6 as stated fails: 101 calls of [send] all return, and the queue then
    holds 101 packages. *)
Lemma queue_grows_past_100 :
  exists cls,
    Client.send_all (same_calls 101) Client.init = Some cls /\
    Queue.qsize (Client.package_queue cls) = 101 /\
    ~ Queue.qsize (Client.package_queue cls) <= 100.
Proof.
  exists (Client.mk false (Queue.mk 0 (List.map package_of (same_calls 101)))).
  split; [exact (send_all_from (same_calls 101) []) |].
  assert (Hsize : Queue.qsize (Client.package_queue
            (Client.mk false (Queue.mk 0 (List.map package_of (same_calls 101))))) = 101).
  { vm_compute. reflexivity. }
  rewrite Hsize. split; [reflexivity | lia].
Qed.

(** C6, amended.  The outbound queue is created without a bound.  From the
    initial state every sequence of [send] calls runs to its end: no call
    blocks or is rejected, each appends exactly its package at the tail, so
    that the queue holds the packages of all the calls in the order of the
    calls, and its length is the number of calls. *)
Theorem outbound_queue_is_unbounded (calls : list (string * string * string)) :
  Queue.maxsize (Client.package_queue Client.init) = 0 /\
  exists cls,
    Client.send_all calls Client.init = Some cls /\
    Queue.queue (Client.package_queue cls) = List.map package_of calls /\
    Queue.qsize (Client.package_queue cls) = Z.of_nat (length calls).
Proof.
  split; [reflexivity |].
  eexists. split; [apply (send_all_from calls []) |].
  cbn [Client.package_queue Queue.queue app]. split; [reflexivity |].
  unfold Queue.qsize. cbn [Queue.queue]. now rewrite length_map.
Qed.

(** The package a call enqueues. *)
Example package_of_a_call :
  package_of ("P1", "createLog", "abc")%string =
  PyDict [("PackageType", PyStr "Logos");
          ("PackageVersion", PyList [PyInt 0; PyInt 0; PyInt 1; PyStr "dev"]);
          ("PackageID", PyStr "P1");
          ("Operation", PyStr "createLog");
          ("Content", PyBytes "abc")].
Proof. reflexivity. Qed.

(** A queue created with [maxsize=100] would block the 101st [put]. *)
Example bounded_queue_blocks :
  Queue.put (Queue.mk 100 (List.repeat PyNone 100)) PyNone = Queue.Blocks.
Proof. vm_compute. reflexivity. Qed.

End OutboundQueue.

(** ** texts.py: permissive lookup *)

Section TextLookup.

(** The requested language has a table that holds the key. *)
Lemma get_requested_language cls key lang table text :
  lang <> ""%string ->
  Texts.content cls !! lang = Some table ->
  table !! key = Some text ->
  Texts.get cls key lang = text.
Proof.
  intros Hlang Htable Hkey. unfold Texts.get.
  apply String.eqb_neq in Hlang. rewrite Hlang, Htable, Hkey. reflexivity.
Qed.

(** The requested language has no table at all: the table of the default
    language answers. *)
Lemma get_falls_back_without_table cls key lang table text :
  lang <> ""%string ->
  Texts.content cls !! lang = None ->
  Texts.content cls !! Texts.DEFAULT_LANGUAGE = Some table ->
  table !! key = Some text ->
  Texts.get cls key lang = text.
Proof.
  intros Hlang Hnone Htable Hkey. unfold Texts.get.
  apply String.eqb_neq in Hlang. rewrite Hlang, Hnone, Htable, Hkey. reflexivity.
Qed.

(** The requested language has a table that lacks the key: the default
    value is returned and the default language is not consulted. *)
Lemma get_no_fallback_with_table cls key lang table :
  lang <> ""%string ->
  Texts.content cls !! lang = Some table ->
  table !! key = None ->
  Texts.get cls key lang = Texts.default_value cls.
Proof.
  intros Hlang Htable Hkey. unfold Texts.get.
  apply String.eqb_neq in Hlang. rewrite Hlang, Htable, Hkey. reflexivity.
Qed.

(** C9, at a catalog with an empty table for "hu" and the key "greeting"
    in the table for "en": the lookup of "greeting" in "hu" returns the
    default value (here the empty string), not the English text, with the
    language passed as an argument and with "hu" as the session language
    alike; [exists] reports the key as missing. *)
Theorem get_ignores_default_language :
  Texts.content two_language_texts !! "hu"%string = Some ∅ /\
  (Texts.content two_language_texts !! "en"%string) ≫= (fun table => table !! "greeting"%string)
    = Some "Hello"%string /\
  Texts.get two_language_texts "greeting" "hu" = ""%string /\
  Texts.get (Texts.set_language "hu" two_language_texts) "greeting" "" = ""%string /\
  Texts.get (Texts.set_default_value "?" two_language_texts) "greeting" "hu" = "?"%string /\
  Texts.exists_ two_language_texts "greeting" "hu" false = false.
Proof. vm_compute. repeat split. Qed.

(** The same key is found when it is asked for in English or in a language
    without a table. *)
Example get_in_other_languages :
  Texts.get two_language_texts "greeting" "en" = "Hello"%string /\
  Texts.get two_language_texts "greeting" "" = "Hello"%string /\
  Texts.get two_language_texts "greeting" "de" = "Hello"%string.
Proof. vm_compute. repeat split. Qed.

End TextLookup.

(* ===================================================================== *)
(** * Part IV. Further properties of the code                             *)
(* ===================================================================== *)

(** ** functiontools.py *)

Section FunctionTools.

Lemma invalid_snapshot_dec (data : pyval) (keys : list string) :
  invalid_snapshot data keys \/ ~ invalid_snapshot data keys.
Proof.
  destruct data as [| | | | | | d]; try (left; left; reflexivity).
  destruct (forallb (dict_has d) keys) eqn:Hall.
  - right. intros [Hd | (key & Hin & Hmiss)]; [discriminate |].
    cbn [has_field] in Hmiss.
    rewrite (forallb_false_witness _ _ _ Hin Hmiss) in Hall. discriminate.
  - left. right. destruct (forallb_false_inv _ _ Hall) as (x & Hin & Hx).
    now exists x.
Qed.

Lemma check_data_never_false (data : pyval) (keys : list string) :
  functiontools.check_data data keys <> Ok false.
Proof.
  destruct (invalid_snapshot_dec data keys) as [Hinv | Hval].
  - rewrite (check_data_invalid _ _ Hinv). discriminate.
  - rewrite (check_data_valid _ _ Hval). discriminate.
Qed.

(** [check_data] returns [True] exactly on the dicts that hold every key.
    On every other input it reaches a [raise] statement, whose class name
    LogosSerializationError is not bound in functiontools.py, and so ends
    in a NameError.  It never returns [False], so a guard
    [if check_data(...)] has no else case. *)
Theorem check_data_decides (data : pyval) (keys : list string) :
  (functiontools.check_data data keys = Ok true <-> ~ invalid_snapshot data keys) /\
  (invalid_snapshot data keys <->
   functiontools.check_data data keys =
   Raise (NameError "name 'LogosSerializationError' is not defined")) /\
  functiontools.check_data data keys <> Ok false.
Proof.
  split; [| split; [| apply check_data_never_false]].
  - destruct (invalid_snapshot_dec data keys) as [Hinv | Hval].
    + rewrite (check_data_invalid _ _ Hinv). split; [discriminate | tauto].
    + rewrite (check_data_valid _ _ Hval). tauto.
  - destruct (invalid_snapshot_dec data keys) as [Hinv | Hval].
    + split; [intros _; now apply check_data_invalid | tauto].
    + rewrite (check_data_valid _ _ Hval). split; [tauto | discriminate].
Qed.

Lemma check_switch_pow2 (panel k : Z) :
  0 <= k -> functiontools.check_switch panel (2 ^ k) = Ok (Z.testbit panel k).
Proof.
  intros Hk. unfold functiontools.check_switch.
  destruct (Z.eqb_spec (2 ^ k) 0) as [E | _]; [now apply pow2_nonzero in E |].
  f_equal. rewrite <- (Z.testbit_spec' panel k Hk). now destruct (Z.testbit panel k).
Qed.

Lemma add_pow2_bits (panel k : Z) :
  0 <= k -> Z.testbit panel k = false ->
  forall j, 0 <= j -> Z.testbit (panel + 2 ^ k) j = if j =? k then true else Z.testbit panel j.
Proof.
  intros Hk Hclear j Hj.
  assert (Hland : Z.land panel (2 ^ k) = 0).
  { apply Z.bits_inj'. intros n Hn. rewrite Z.land_spec, Z.bits_0.
    rewrite (Z.pow2_bits_eqb k n Hk).
    destruct (Z.eqb_spec k n) as [-> |]; [now rewrite Hclear | apply andb_false_r]. }
  rewrite (Z.add_nocarry_lxor _ _ Hland), Z.lxor_spec, (Z.pow2_bits_eqb k j Hk).
  rewrite (Z.eqb_sym k j).
  destruct (Z.eqb_spec j k) as [-> |].
  - now rewrite Hclear.
  - apply xorb_false_r.
Qed.

(** Access modes are sums of grants ([READ + WRITE] in [on_create]).  Adding
    a grant [2^k] that the mode does not hold yet makes [check_switch]
    answer true for that grant and leaves its answer for every other grant
    as it was. *)
Theorem check_switch_after_grant (panel k j : Z) :
  0 <= k -> 0 <= j -> Z.testbit panel k = false ->
  functiontools.check_switch (panel + 2 ^ k) (2 ^ k) = Ok true /\
  (j <> k ->
   functiontools.check_switch (panel + 2 ^ k) (2 ^ j) =
   functiontools.check_switch panel (2 ^ j)).
Proof.
  intros Hk Hj Hclear. split.
  - rewrite (check_switch_pow2 _ _ Hk), (add_pow2_bits _ _ Hk Hclear k Hk).
    now rewrite Z.eqb_refl.
  - intros Hne. rewrite !(check_switch_pow2 _ _ Hj), (add_pow2_bits _ _ Hk Hclear j Hj).
    apply Z.eqb_neq in Hne. now rewrite Hne.
Qed.

Lemma check_switch_after_grant_witness :
  0 <= 1 /\ 0 <= 0 /\ Z.testbit 1 1 = false /\
  functiontools.check_switch (1 + 2 ^ 1) (2 ^ 1) = Ok true /\
  (0 <> 1 ->
   functiontools.check_switch (1 + 2 ^ 1) (2 ^ 0) = functiontools.check_switch 1 (2 ^ 0)).
Proof.
  split; [lia | split; [lia | split; [reflexivity |]]].
  apply (check_switch_after_grant 1 1 0); [lia | lia | reflexivity].
Defined.

End FunctionTools.

(** ** texts.py and the registries of attributes.py *)

Section Registries.

(** [exists] and [get] agree: a strict hit is a permissive hit; when the
    permissive [exists] is false [get] returns the default value, and when
    it is true [get] returns the text stored under the key, in the table of
    the requested (or session) language if that language has a table, and
    in the table of the default language otherwise. *)
Theorem get_agrees_with_exists (cls : Texts.t) (key language : string) :
  (Texts.exists_ cls key language true = true ->
   Texts.exists_ cls key language false = true) /\
  (Texts.exists_ cls key language false = false ->
   Texts.get cls key language = Texts.default_value cls) /\
  (Texts.exists_ cls key language false = true ->
   exists l table,
     Texts.content cls !! l = Some table /\
     table !! key = Some (Texts.get cls key language) /\
     (l = effective_language cls language \/
      (Texts.content cls !! effective_language cls language = None /\
       l = Texts.DEFAULT_LANGUAGE))).
Proof.
  unfold Texts.exists_, Texts.get, Texts.has_key, effective_language.
  set (lang := if String.eqb language "" then Texts.language cls else language).
  destruct (Texts.content cls !! lang) as [table |] eqn:Hlang.
  - destruct (table !! key) as [text |] eqn:Hkey.
    + repeat split; try discriminate; try reflexivity.
      intros _. exists lang, table. repeat split; auto.
    + repeat split; try discriminate; reflexivity.
  - destruct (Texts.content cls !! Texts.DEFAULT_LANGUAGE) as [table |] eqn:Hdef.
    + destruct (table !! key) as [text |] eqn:Hkey.
      * repeat split; try discriminate; try reflexivity.
        intros _. exists Texts.DEFAULT_LANGUAGE, table. repeat split; auto.
      * repeat split; try discriminate; reflexivity.
    + repeat split; try discriminate; reflexivity.
Qed.

Lemma get_agrees_with_exists_witness :
  Texts.exists_ tag_texts "#1" "de" false = true /\
  exists l table,
    Texts.content tag_texts !! l = Some table /\
    table !! "#1"%string = Some (Texts.get tag_texts "#1" "de") /\
    (l = effective_language tag_texts "de" \/
     (Texts.content tag_texts !! effective_language tag_texts "de" = None /\
      l = Texts.DEFAULT_LANGUAGE)).
Proof.
  assert (H : Texts.exists_ tag_texts "#1" "de" false = true) by (vm_compute; reflexivity).
  split; [exact H |].
  destruct (get_agrees_with_exists tag_texts "#1" "de") as (_ & _ & Hhit).
  exact (Hhit H).
Defined.

(** The empty string as language argument stands for the session language,
    in [get] and in [exists]; after [set_language(l)] with a non-empty [l] a
    lookup without language is the lookup in [l]. *)
Theorem session_language_is_the_default_argument (cls : Texts.t) (key l : string) :
  Texts.get cls key "" = Texts.get cls key (Texts.language cls) /\
  (forall strict,
     Texts.exists_ cls key "" strict = Texts.exists_ cls key (Texts.language cls) strict) /\
  (l <> ""%string ->
   Texts.get (Texts.set_language l cls) key "" = Texts.get cls key l /\
   Texts.get_language (Texts.set_language l cls) = l /\
   Texts.get_default_value (Texts.set_language l cls) = Texts.get_default_value cls).
Proof.
  split; [| split].
  - unfold Texts.get. cbn [String.eqb].
    destruct (String.eqb_spec (Texts.language cls) "") as [E | E]; reflexivity.
  - intros strict. unfold Texts.exists_. cbn [String.eqb].
    destruct (String.eqb_spec (Texts.language cls) "") as [E | E]; reflexivity.
  - intros Hl. apply String.eqb_neq in Hl. unfold Texts.get, Texts.set_language.
    cbn [String.eqb Texts.language Texts.content Texts.default_value].
    rewrite Hl. repeat split.
Qed.

Lemma session_language_is_the_default_argument_witness :
  "hu"%string <> ""%string /\
  Texts.get (Texts.set_language "hu" two_language_texts) "greeting" ""
  = Texts.get two_language_texts "greeting" "hu".
Proof.
  assert (H : "hu"%string <> ""%string) by discriminate.
  split; [exact H |].
  destruct (session_language_is_the_default_argument two_language_texts "greeting" "hu")
    as (_ & _ & Hset).
  exact (proj1 (Hset H)).
Defined.

Lemma existsb_eqb_In (x : Z) (l : list Z) :
  existsb (fun y => y =? x) l = true <-> In x l.
Proof.
  rewrite existsb_exists. split.
  - intros (y & Hin & Heq). apply Z.eqb_eq in Heq. now subst.
  - intros Hin. exists x. split; [exact Hin | apply Z.eqb_refl].
Qed.

(** A snapshot of Tags replaces the registry: afterwards exactly the ids
    of the snapshot are available, in the order received; the class holds
    the version of the snapshot and the time of the call; one reading of
    the clock is consumed and the current user is untouched. *)
Theorem Tags_snapshot_replaces_registry (w : World) (data : list Z) (v : Z) :
  exists w',
    Tags.on_data_received data v w = (Ok tt, w') /\
    (forall x, Tags.available w' x = true <-> In x data) /\
    Tags.get_all_ids w' = data /\
    Tags_base (Tags_cls w') = mkSingleton (reading w) v /\
    time_reads w' = S (time_reads w) /\
    time_source w' = time_source w /\
    CurrentUser_id w' = CurrentUser_id w.
Proof.
  eexists. split; [reflexivity |]. split.
  - intros x. unfold Tags.available. cbn. apply existsb_eqb_In.
  - repeat split.
Qed.

(** [Descriptions.get(key, value)] returns the two texts exactly when the
    key is a description key, the value is one of its values, and both the
    key and the value are registered tag ids as well, since the texts are
    read through [Tags.get]; every other call raises a permission error. *)
Theorem Descriptions_get_requires_tags
  (cls : Descriptions.t) (w : World) (texts : Texts.t) (key value : Z) :
  (forall d,
     Descriptions.get cls w texts key value = Ok d <->
     (exists values, Descriptions.description_structure cls !! key = Some values /\
                     In value values) /\
     Tags.available w key = true /\
     Tags.available w value = true /\
     d = PyDict [("description", PyStr (Texts.get texts ("#" +:+ str_of_int key) ""));
                 ("value", PyStr (Texts.get texts ("#" +:+ str_of_int value) ""))]) /\
  (forall e,
     Descriptions.get cls w texts key value = Raise e ->
     exists msg, e = LogosPermissionError msg).
Proof.
  unfold Descriptions.get, Descriptions.available_value, Tags.get.
  destruct (Descriptions.description_structure cls !! key) as [values |] eqn:Hkey.
  2:{ split.
      - intros d. split; [discriminate |]. intros ((vs & Hvs & _) & _). discriminate.
      - intros e H. inversion H. eexists. reflexivity. }
  destruct (existsb (fun x => x =? value) values) eqn:Hval.
  2:{ split.
      - intros d. split; [discriminate |].
        intros ((vs & Hvs & Hin) & _). inversion Hvs; subst vs.
        apply existsb_eqb_In in Hin. congruence.
      - intros e H. inversion H. eexists. reflexivity. }
  apply existsb_eqb_In in Hval.
  destruct (Tags.available w key) eqn:Hk; cbn [negb].
  2:{ split.
      - intros d. split; [discriminate |]. intros (_ & Hf & _). discriminate.
      - intros e H. inversion H. eexists. reflexivity. }
  destruct (Tags.available w value) eqn:Hv; cbn [negb].
  2:{ split.
      - intros d. split; [discriminate |]. intros (_ & _ & Hf & _). discriminate.
      - intros e H. inversion H. eexists. reflexivity. }
  split.
  - intros d. split.
    + intros H. inversion H. repeat split. now exists values.
    + intros (_ & _ & _ & ->). reflexivity.
  - intros e H. discriminate.
Qed.

(** With the tags 1, 2, 3, 7 registered: the description (2, 1) is
    readable, and (5, 7) is not, although 5 is a description key with the
    value 7, because 5 is not a tag. *)
Example Descriptions_get_examples :
  Descriptions.get colour_descriptions tags_world tag_texts 2 1 =
    Ok (PyDict [("description", PyStr "colour"); ("value", PyStr "urgent")]) /\
  Descriptions.get colour_descriptions tags_world tag_texts 2 3 =
    Ok (PyDict [("description", PyStr "colour"); ("value", PyStr "?")]) /\
  Descriptions.get colour_descriptions tags_world tag_texts 5 7 =
    Raise (LogosPermissionError "Tag #5 is not accessible.") /\
  Descriptions.get colour_descriptions tags_world tag_texts 2 7 =
    Raise (LogosPermissionError "Description value #7 is not accessible at key #2.") /\
  Descriptions.get colour_descriptions tags_world tag_texts 4 1 =
    Raise (LogosPermissionError "Description key #4 is not accessible.").
Proof. vm_compute. repeat split. Qed.

(** Readiness composes along the dependencies: Descriptions is ready
    exactly when Descriptions, Tags and Texts have each a positive
    timestamp, and Tags exactly when Tags and Texts have. *)
Theorem registries_ready_chain (cls : Descriptions.t) (w : World) (texts : Texts.t) :
  (Descriptions.is_ready cls w texts = true <->
   0 < cls_last_update (Descriptions.base cls) /\
   0 < cls_last_update (Tags_base (Tags_cls w)) /\
   0 < cls_last_update (Texts.base texts)) /\
  (Tags.is_ready w texts = true <->
   0 < cls_last_update (Tags_base (Tags_cls w)) /\
   0 < cls_last_update (Texts.base texts)) /\
  (Descriptions.is_ready cls w texts = true -> Tags.is_ready w texts = true).
Proof.
  unfold Descriptions.is_ready, Tags.is_ready, LogosUpdateableSingleton.is_ready.
  rewrite !andb_true_iff, !Z.ltb_lt. tauto.
Qed.

End Registries.

(** ** attributes.py: the tag list of an editable attribute set *)

Section TagList.

Lemma existsb_filter_out (l : list pyval) (id : Z) :
  existsb (fun x => eq_int x id) (List.filter (fun x => negb (eq_int x id)) l) = false.
Proof.
  induction l as [| x l IH]; [reflexivity |].
  cbn [List.filter]. destruct (eq_int x id) eqn:Hx; cbn [negb]; [exact IH |].
  cbn [existsb]. now rewrite Hx, IH.
Qed.

(** [delete_tag] on a list of tags.  An id that is not in the list is
    refused with ValueError and nothing changes.  An id that is in the list
    is removed at every position, the other tags keeping their order, and
    the call then raises AttributeError at [super().om_update()], so that
    the base part (dirty flag, timestamp, version) is not touched. *)
Theorem delete_tag_outcomes
  (w : World) (a : LogosEditableAttributes.t) (l : list pyval) (id : Z) :
  LogosEditableAttributes.tags a = PyList l ->
  (existsb (fun x => eq_int x id) l = false ->
   LogosEditableAttributes.delete_tag id (w, a) =
   (Raise (ValueError "Tag ID doesn't exist."), (w, a))) /\
  (existsb (fun x => eq_int x id) l = true ->
   LogosEditableAttributes.delete_tag id (w, a) =
   (Raise om_update_missing,
    (w, LogosEditableAttributes.mk (LogosEditableAttributes.base a)
          (PyList (List.filter (fun x => negb (eq_int x id)) l))
          (LogosEditableAttributes.descriptions a))) /\
   contains_int (PyList (List.filter (fun x => negb (eq_int x id)) l)) id = Ok false).
Proof.
  intros Htags. destruct a as [[b c] t d]. cbn in Htags. subst t. split; intros Hin.
  - unfold LogosEditableAttributes.delete_tag. cbn. rewrite Hin. reflexivity.
  - split.
    + unfold LogosEditableAttributes.delete_tag. cbn. rewrite Hin. reflexivity.
    + cbn [contains_int]. now rewrite existsb_filter_out.
Qed.

Lemma delete_tag_outcomes_witness :
  let a := LogosEditableAttributes.mk LogosLocallyCangeable.init
             (PyList [PyInt 2; PyInt 1; PyInt 2; PyInt 3]) (PyDict []) in
  LogosEditableAttributes.tags a = PyList [PyInt 2; PyInt 1; PyInt 2; PyInt 3] /\
  LogosEditableAttributes.delete_tag 2 (tags_world, a) =
  (Raise om_update_missing,
   (tags_world, LogosEditableAttributes.mk LogosLocallyCangeable.init
                  (PyList [PyInt 1; PyInt 3]) (PyDict []))).
Proof.
  split; [reflexivity |].
  exact (proj1 (proj2 (delete_tag_outcomes tags_world
           (LogosEditableAttributes.mk LogosLocallyCangeable.init
              (PyList [PyInt 2; PyInt 1; PyInt 2; PyInt 3]) (PyDict []))
           [PyInt 2; PyInt 1; PyInt 2; PyInt 3] 2 eq_refl) eq_refl)).
Defined.

Lemma last_index_from_absent (l : list pyval) (z : Z) : forall i pos,
  existsb (fun x => eq_int x z) l = false -> last_index_from i pos l z = pos.
Proof.
  induction l as [| x l IH]; intros i pos H; [reflexivity |].
  cbn [existsb] in H. apply orb_false_iff in H as [Hx Hl].
  cbn [last_index_from]. rewrite Hx. now apply IH.
Qed.

Lemma last_index_from_present (l : list pyval) (z : Z) : forall i pos,
  existsb (fun x => eq_int x z) l = true ->
  exists (n : nat) (x : pyval),
    last_index_from i pos l z = i + Z.of_nat n /\
    l !! n = Some x /\ eq_int x z = true /\
    (forall (m : nat) (y : pyval), (n < m)%nat -> l !! m = Some y -> eq_int y z = false).
Proof.
  induction l as [| x l IH]; intros i pos H; [discriminate |].
  cbn [last_index_from].
  destruct (existsb (fun y => eq_int y z) l) eqn:Hl.
  - destruct (IH (i + 1) (if eq_int x z then i else pos) eq_refl)
      as (n & y & Hidx & Hn & Hy & Hlater).
    exists (S n), y. split; [rewrite Hidx; lia |]. split; [exact Hn |]. split; [exact Hy |].
    intros m y' Hm Hm'. destruct m as [| m]; [lia |].
    apply (Hlater m y'); [lia | exact Hm'].
  - cbn [existsb] in H. rewrite Hl, orb_false_r in H.
    exists O, x. rewrite H, (last_index_from_absent l z _ _ Hl).
    split; [lia |]. split; [reflexivity |]. split; [reflexivity |].
    intros m y Hm Hm'. destruct m as [| m]; [lia |]. cbn in Hm'.
    destruct (eq_int y z) eqn:Hy; [| reflexivity].
    assert (Hex : existsb (fun y0 => eq_int y0 z) l = true).
    { apply existsb_exists. exists y. split; [| exact Hy].
      apply list_elem_of_In. eapply list_elem_of_lookup_2. exact Hm'. }
    congruence.
Qed.

(** [change_tag] on a list of tags, with a registered new tag.
    - When the original tag is in the list, its last occurrence is replaced.
    - When it is not, the call is refused with ValueError only if the list
      holds the tag 0: the guard [pos < 0 in self.__tags] tests [pos < 0]
      and [0 in self.__tags].
    - When it is not and 0 is not in the list either, the assignment
      [self.__tags[-1] = new_tag] overwrites the last tag of a non-empty list
      and raises IndexError on the empty list.
    Every replacement is followed by the AttributeError of
    [super().om_update()], and the base part is never touched. *)
Theorem change_tag_outcomes
  (w : World) (a : LogosEditableAttributes.t) (l : list pyval) (original new_tag : Z) :
  LogosEditableAttributes.tags a = PyList l ->
  Tags.available w new_tag = true ->
  (existsb (fun x => eq_int x original) l = true ->
   exists (n : nat) (x : pyval),
     l !! n = Some x /\ eq_int x original = true /\
     (forall (m : nat) (y : pyval),
        (n < m)%nat -> l !! m = Some y -> eq_int y original = false) /\
     LogosEditableAttributes.change_tag original new_tag (w, a) =
     LogosEditableAttributes.Finished (Raise om_update_missing)
       (w, LogosEditableAttributes.mk (LogosEditableAttributes.base a)
             (PyList (<[n := PyInt new_tag]> l))
             (LogosEditableAttributes.descriptions a))) /\
  (existsb (fun x => eq_int x original) l = false ->
   (existsb (fun x => eq_int x 0) l = true ->
    LogosEditableAttributes.change_tag original new_tag (w, a) =
    LogosEditableAttributes.Finished (Raise (ValueError "Tag ID doesn't exist.")) (w, a)) /\
   (existsb (fun x => eq_int x 0) l = false -> l <> [] ->
    LogosEditableAttributes.change_tag original new_tag (w, a) =
    LogosEditableAttributes.Finished (Raise om_update_missing)
      (w, LogosEditableAttributes.mk (LogosEditableAttributes.base a)
            (PyList (<[Nat.pred (length l) := PyInt new_tag]> l))
            (LogosEditableAttributes.descriptions a))) /\
   (l = [] ->
    LogosEditableAttributes.change_tag original new_tag (w, a) =
    LogosEditableAttributes.IndexError_raised (w, a))).
Proof.
  intros Htags Hreg. destruct a as [[b c] t d]. cbn in Htags. subst t.
  unfold LogosEditableAttributes.change_tag.
  cbn [snd fst LogosEditableAttributes.tags LogosEditableAttributes.base
       LogosEditableAttributes.descriptions iterate].
  rewrite Hreg. cbn [negb]. split.
  - intros Hin.
    destruct (last_index_from_present l original 0 (-1) Hin)
      as (n & x & Hidx & Hn & Hx & Hlater).
    exists n, x. split; [exact Hn |]. split; [exact Hx |]. split; [exact Hlater |].
    rewrite Hidx. assert (Hlt : (n < length l)%nat) by (eapply lookup_lt_Some; exact Hn).
    replace (0 + Z.of_nat n <? 0) with false by (symmetry; apply Z.ltb_ge; lia).
    unfold store_index.
    replace (0 + Z.of_nat n <? 0) with false by (symmetry; apply Z.ltb_ge; lia).
    replace ((0 <=? 0 + Z.of_nat n) && (0 + Z.of_nat n <? Z.of_nat (length l))) with true
      by (symmetry; apply andb_true_iff; split; [apply Z.leb_le | apply Z.ltb_lt]; lia).
    replace (Z.to_nat (0 + Z.of_nat n)) with n by lia.
    reflexivity.
  - intros Habs. rewrite (last_index_from_absent l original 0 (-1) Habs).
    cbn [Z.ltb Z.compare contains_int]. split; [| split].
    + intros Hzero. rewrite Hzero. reflexivity.
    + intros Hzero Hne. rewrite Hzero. unfold store_index. cbn [Z.ltb Z.compare].
      assert (Hlen : (0 < length l)%nat) by (destruct l; [congruence | cbn; lia]).
      replace ((0 <=? -1 + Z.of_nat (length l)) &&
               (-1 + Z.of_nat (length l) <? Z.of_nat (length l))) with true
        by (symmetry; apply andb_true_iff; split; [apply Z.leb_le | apply Z.ltb_lt]; lia).
      replace (Z.to_nat (-1 + Z.of_nat (length l))) with (Nat.pred (length l)) by lia.
      reflexivity.
    + intros ->. reflexivity.
Qed.

Lemma change_tag_outcomes_witness :
  let a := LogosEditableAttributes.mk LogosLocallyCangeable.init
             (PyList [PyInt 1; PyInt 2]) (PyDict []) in
  LogosEditableAttributes.tags a = PyList [PyInt 1; PyInt 2] /\
  Tags.available tags_world 7 = true /\
  LogosEditableAttributes.change_tag 3 7 (tags_world, a) =
  LogosEditableAttributes.Finished (Raise om_update_missing)
    (tags_world, LogosEditableAttributes.mk LogosLocallyCangeable.init
                   (PyList [PyInt 1; PyInt 7]) (PyDict [])).
Proof.
  split; [reflexivity | split; [reflexivity |]].
  destruct (change_tag_outcomes tags_world
              (LogosEditableAttributes.mk LogosLocallyCangeable.init
                 (PyList [PyInt 1; PyInt 2]) (PyDict []))
              [PyInt 1; PyInt 2] 3 7 eq_refl eq_refl) as (_ & Habsent).
  destruct (Habsent eq_refl) as (_ & Hlast & _).
  exact (Hlast eq_refl ltac:(discriminate)).
Defined.

End TagList.

(** ** attributes.py: serialisation of an editable attribute set *)

Section AttributeSerialisation.

Lemma copy_copyable (v c : pyval) : copy v = Ok c -> c = v /\ copyable c = true.
Proof. destruct v; cbn; intros H; inversion H; split; reflexivity. Qed.

Lemma serializable_fresh : serializable LogosEditableAttributes.fresh.
Proof. split; reflexivity. Qed.

Lemma on_data_received_serializable data v w a :
  serializable a ->
  serializable (snd (snd (LogosEditableAttributes.on_data_received data v (w, a)))).
Proof.
  intros [Ht Hd]. unfold LogosEditableAttributes.on_data_received. cbn.
  destruct (functiontools.check_data data _); cbn; [| now split].
  destruct (subscript data "tags") as [x |]; cbn; [| now split].
  destruct (copy x) as [cx |] eqn:Hcx; cbn; [| now split].
  apply copy_copyable in Hcx as [_ Hcx].
  destruct (subscript data "descriptions") as [y |]; cbn; [| now split].
  destruct (copy y) as [cy |] eqn:Hcy; cbn; [| now split].
  apply copy_copyable in Hcy as [_ Hcy]. now split.
Qed.

Lemma add_tag_serializable id w a :
  serializable a ->
  serializable (snd (snd (LogosEditableAttributes.add_tag id (w, a)))).
Proof.
  intros [Ht Hd]. destruct a as [b t d]. cbn in Ht, Hd.
  unfold LogosEditableAttributes.add_tag. cbn.
  destruct (contains_int t id) as [[|] |]; cbn; try (now split).
  destruct (Tags.available w id); cbn; [| now split].
  destruct t; cbn; try discriminate; now split.
Qed.

Lemma delete_tag_serializable id w a :
  serializable a ->
  serializable (snd (snd (LogosEditableAttributes.delete_tag id (w, a)))).
Proof.
  intros [Ht Hd]. unfold LogosEditableAttributes.delete_tag. cbn.
  destruct (contains_int (LogosEditableAttributes.tags a) id) as [[|] |]; cbn;
    try (now split).
  destruct (iterate (LogosEditableAttributes.tags a)); cbn; now split.
Qed.

(** An attribute set whose two containers are a list or a dict keeps that
    form through snapshots (accepted or rejected), [add_tag] and
    [delete_tag], whatever their arguments and however the calls end; a new
    attribute set has that form. *)
Theorem attributes_stay_serializable (w : World) (a : LogosEditableAttributes.t) :
  serializable a ->
  serializable LogosEditableAttributes.fresh /\
  (forall data v,
     serializable (snd (snd (LogosEditableAttributes.on_data_received data v (w, a))))) /\
  (forall id, serializable (snd (snd (LogosEditableAttributes.add_tag id (w, a))))) /\
  (forall id, serializable (snd (snd (LogosEditableAttributes.delete_tag id (w, a))))).
Proof.
  intros Ha. split; [exact serializable_fresh |]. split; [| split].
  - intros data v. now apply on_data_received_serializable.
  - intros id. now apply add_tag_serializable.
  - intros id. now apply delete_tag_serializable.
Qed.

Lemma attributes_stay_serializable_witness :
  serializable LogosEditableAttributes.fresh /\
  serializable (snd (snd (LogosEditableAttributes.add_tag 2
                            (tags_world, LogosEditableAttributes.fresh)))).
Proof.
  assert (H : serializable LogosEditableAttributes.fresh) by (split; reflexivity).
  split; [exact H |].
  destruct (attributes_stay_serializable tags_world LogosEditableAttributes.fresh H)
    as (_ & _ & Hadd & _).
  exact (Hadd 2).
Defined.

(** For such an attribute set [to_json_dict] returns a dict with the two
    containers, the property [tags] returns the tag list, the property
    [descriptions] returns [None], and an attribute set constructed from the
    dict holds the same tags and descriptions, with the version passed to
    the constructor, the time of construction, and a clear dirty flag. *)
Theorem to_json_dict_round_trip (w : World) (a : LogosEditableAttributes.t) (v : Z) :
  serializable a ->
  LogosEditableAttributes.to_json_dict a =
    Ok (PyDict [("tags", LogosEditableAttributes.tags a);
                ("descriptions", LogosEditableAttributes.descriptions a)]) /\
  LogosEditableAttributes.tags_property a = Ok (LogosEditableAttributes.tags a) /\
  LogosEditableAttributes.descriptions_property a = Ok PyNone /\
  LogosEditableAttributes.new
    (PyDict [("tags", LogosEditableAttributes.tags a);
             ("descriptions", LogosEditableAttributes.descriptions a)]) v w =
  (Ok (LogosEditableAttributes.mk
         (LogosLocallyCangeable.mk (LogosUpdateable.mk (reading w) v) false)
         (LogosEditableAttributes.tags a) (LogosEditableAttributes.descriptions a)),
   tick w).
Proof.
  intros [Ht Hd]. destruct a as [b t d]. cbn in Ht, Hd.
  unfold LogosEditableAttributes.to_json_dict, LogosEditableAttributes.tags_property,
    LogosEditableAttributes.descriptions_property.
  destruct t; try discriminate; destruct d; try discriminate; repeat split.
Qed.

Lemma to_json_dict_round_trip_witness :
  let a := LogosEditableAttributes.mk
             (LogosLocallyCangeable.mk (LogosUpdateable.mk 1000 3) true)
             (PyList [PyInt 1; PyInt 2]) (PyDict []) in
  serializable a /\
  LogosEditableAttributes.to_json_dict a =
    Ok (PyDict [("tags", PyList [PyInt 1; PyInt 2]); ("descriptions", PyDict [])]).
Proof.
  assert (H : serializable (LogosEditableAttributes.mk
                (LogosLocallyCangeable.mk (LogosUpdateable.mk 1000 3) true)
                (PyList [PyInt 1; PyInt 2]) (PyDict []))) by (split; reflexivity).
  split; [exact H |].
  exact (proj1 (to_json_dict_round_trip tags_world _ 4 H)).
Defined.

End AttributeSerialisation.

(** ** flow.py: snapshots and local edits of flow objects *)

Section FlowSnapshots.

Lemma dict_has_get (d : list (string * pyval)) (key : string) :
  dict_has d key = true -> exists v, dict_get d key = Some v.
Proof.
  induction d as [| [k x] d IH]; [discriminate |].
  cbn [dict_has dict_get]. destruct (String.eqb k key); [intros _; now exists x | exact IH].
Qed.

(** A valid snapshot is a dict in which every required field has a value. *)
Lemma valid_snapshot_fields (data : pyval) (keys : list string) :
  ~ invalid_snapshot data keys ->
  exists d, data = PyDict d /\
            forall key, In key keys ->
                        dict_has d key = true /\ exists v, dict_get d key = Some v.
Proof.
  intros Hvalid. destruct data as [| | | | | | d];
    try (exfalso; apply Hvalid; left; reflexivity).
  exists d. split; [reflexivity |]. intros key Hin.
  destruct (dict_has d key) eqn:Hhas.
  - split; [reflexivity | now apply dict_has_get].
  - exfalso. apply Hvalid. right. now exists key.
Qed.

Ltac field_of Hfields key Hhas v Hget :=
  let H := fresh in
  destruct (Hfields key) as [Hhas H]; [cbn; tauto |]; destruct H as [v Hget].

(** Setting the content of a log entry is a local edit: the content is
    stored, the entry becomes dirty and takes the time of the call, and its
    version and all other fields stay.  A valid snapshot applied afterwards
    clears the dirty flag and replaces version, time, id, access mode and
    finished flag, sets attributes and attachments to [None], and keeps the
    locally set content, which no snapshot field replaces. *)
Theorem snapshot_keeps_local_content
  (w : World) (e : LogosLogEntry.t) (c data : pyval) (v : Z) :
  ~ invalid_snapshot data log_entry_fields ->
  LogosLogEntry.set_content c (w, e) =
    (Ok tt, (tick w,
             LogosLogEntry.mk
               (LogosLocallyCangeable.mk
                  (LogosUpdateable.mk (reading w) (LogosLogEntry.version e)) true)
               (LogosLogEntry.id_time e) (LogosLogEntry.id_user e)
               (LogosLogEntry.access_mode e) c (LogosLogEntry.attributes e)
               (LogosLogEntry.attachments e) (LogosLogEntry.is_finished e))) /\
  exists id_time id_user access finished,
    subscript data "id_time" = Ok id_time /\
    subscript data "id_user" = Ok id_user /\
    subscript data "access_mode" = Ok access /\
    subscript data "is_finished" = Ok finished /\
    (LogosLogEntry.set_content c ;; LogosLogEntry.on_data_received data v) (w, e) =
    (Ok tt, (tick (tick w),
             LogosLogEntry.mk
               (LogosLocallyCangeable.mk (LogosUpdateable.mk (reading (tick w)) v) false)
               id_time id_user access c None PyNone finished)).
Proof.
  intros Hvalid. split; [destruct e as [[[lu ve] ch] i1 i2 i3 i4 i5 i6 i7]; reflexivity |].
  destruct (valid_snapshot_fields _ _ Hvalid) as (d & -> & Hfields).
  unfold log_entry_fields in Hfields.
  field_of Hfields "id_time"%string H1 v1 G1.
  field_of Hfields "id_user"%string H2 v2 G2.
  field_of Hfields "access_mode"%string H3 v3 G3.
  field_of Hfields "attributes"%string H4 v4 G4.
  field_of Hfields "attachments"%string H5 v5 G5.
  field_of Hfields "is_finished"%string H6 v6 G6.
  exists v1, v2, v3, v6.
  cbn [subscript]. rewrite G1, G2, G3, G6. repeat (split; [reflexivity |]).
  unfold LogosLogEntry.on_data_received, LogosLogEntry.set_content. cbn.
  rewrite H1, H2, H3, H4, H5, H6. cbn. rewrite G1. cbn. rewrite G2. cbn.
  rewrite G3. cbn. rewrite G6. reflexivity.
Qed.

Lemma snapshot_keeps_local_content_witness :
  ~ invalid_snapshot entry_snapshot log_entry_fields /\
  (LogosLogEntry.set_content (PyStr "draft") ;;
   LogosLogEntry.on_data_received entry_snapshot 4)
    (world_at 1000 [] PyNone, LogosLogEntry.fresh) =
  (Ok tt, (tick (tick (world_at 1000 [] PyNone)),
           LogosLogEntry.mk
             (LogosLocallyCangeable.mk (LogosUpdateable.mk 1001 4) false)
             (PyInt 1000) (PyStr "U7") (PyInt 3) (PyStr "draft") None PyNone
             (PyBool false))).
Proof.
  assert (H : ~ invalid_snapshot entry_snapshot log_entry_fields).
  { intros [Hd | (key & Hin & Hmiss)]; [discriminate |].
    cbn in Hin. repeat (destruct Hin as [<- | Hin]; [discriminate |]). exact Hin. }
  split; [exact H |].
  destruct (snapshot_keeps_local_content (world_at 1000 [] PyNone) LogosLogEntry.fresh
              (PyStr "draft") entry_snapshot 4 H)
    as (_ & t & u & am & fin & Ht & Hu & Ham & Hfin & Hrun).
  inversion Ht. inversion Hu. inversion Ham. inversion Hfin. subst. exact Hrun.
Defined.

(** Neither the property [is_changed] nor [to_json_dict] of a log entry can
    be evaluated: in every state both raise AttributeError, because
    [attachments] never holds an object and a snapshot sets [attributes]
    to [None]. *)
Theorem log_entry_cannot_be_serialized (l : LogosLogEntry.t) :
  (exists msg, LogosLogEntry.to_json_dict l = Raise (AttributeError msg)) /\
  (exists msg, LogosLogEntry.is_changed l = Raise (AttributeError msg)).
Proof.
  unfold LogosLogEntry.to_json_dict, LogosLogEntry.is_changed,
    LogosEditableAttributes.to_json_dict.
  destruct (LogosLogEntry.attributes l) as [a |]; split; try (eexists; reflexivity).
  destruct (LogosEditableAttributes.tags a); cbn; try (eexists; reflexivity);
    destruct (LogosEditableAttributes.descriptions a); cbn; eexists; reflexivity.
Qed.

End FlowSnapshots.

(** ** flow.py: flow objects and channels *)

Section FlowObjects.

Ltac field_in Hfields key Hhas v Hget :=
  let H := fresh in
  destruct (Hfields key) as [Hhas H]; [cbn; tauto |]; destruct H as [v Hget].

(** A valid snapshot of a flow object replaces id, name and access mode
    and then builds the attributes from the field [attributes] at version
    0.  When that construction raises (the field is a dict that lacks
    [tags] or [descriptions], say) the call raises the same error with id,
    name and access mode already replaced and the previous attributes
    kept. *)
Theorem flow_object_snapshot_outcome
  (w : World) (o : LogosFlowObject.t) (data : pyval) (v : Z) :
  ~ invalid_snapshot data flow_object_fields ->
  exists id name access av,
    subscript data "id" = Ok id /\
    subscript data "name" = Ok name /\
    subscript data "access_mode" = Ok access /\
    subscript data "attributes" = Ok av /\
    LogosFlowObject.on_data_received data v (w, o) =
    match LogosAttributes.new av 0 (tick w) with
    | (Ok a, w2) =>
        (Ok tt, (w2, LogosFlowObject.mk (LogosUpdateable.mk (reading w) v)
                       id name access (Some a)))
    | (Raise e, w2) =>
        (Raise e, (w2, LogosFlowObject.mk (LogosUpdateable.mk (reading w) v)
                         id name access (LogosFlowObject.attributes o)))
    end.
Proof.
  intros Hvalid.
  destruct (valid_snapshot_fields _ _ Hvalid) as (d & -> & Hfields).
  unfold flow_object_fields in Hfields.
  field_in Hfields "id"%string H1 v1 G1.
  field_in Hfields "name"%string H2 v2 G2.
  field_in Hfields "access_mode"%string H3 v3 G3.
  field_in Hfields "attributes"%string H4 v4 G4.
  exists v1, v2, v3, v4.
  cbn [subscript]. rewrite G1, G2, G3, G4. repeat (split; [reflexivity |]).
  unfold LogosFlowObject.on_data_received. cbn.
  rewrite H1, H2, H3, H4. cbn. rewrite G1. cbn. rewrite G2. cbn. rewrite G3. cbn.
  rewrite G4. cbn.
  unfold bind, in_world, zoom. cbn [fst snd].
  change (set_time_reads (S (time_reads w)) w) with (tick w).
  destruct (LogosAttributes.new v4 0 (tick w)) as [[a | e] w2]; reflexivity.
Qed.

Lemma flow_object_snapshot_outcome_witness :
  let data := PyDict [("id", PyStr "C2"); ("name", PyStr "new"); ("access_mode", PyInt 1);
                      ("attributes", PyDict [("tags", PyList [])])] in
  let o := LogosFlowObject.mk (LogosUpdateable.mk 0 0) (PyStr "C1") (PyStr "old")
             (PyInt 0) None in
  ~ invalid_snapshot data flow_object_fields /\
    LogosFlowObject.on_data_received data 5 (world_at 1000 [] PyNone, o) =
    (Raise (NameError "name 'LogosSerializationError' is not defined"),
     (tick (tick (world_at 1000 [] PyNone)),
      LogosFlowObject.mk (LogosUpdateable.mk 1000 5) (PyStr "C2") (PyStr "new")
        (PyInt 1) None)).
Proof.
  cbv zeta.
  assert (H : ~ invalid_snapshot
                (PyDict [("id", PyStr "C2"); ("name", PyStr "new"); ("access_mode", PyInt 1);
                         ("attributes", PyDict [("tags", PyList [])])])
                flow_object_fields).
  { intros [Hd | (key & Hin & Hmiss)]; [discriminate |].
    cbn in Hin. repeat (destruct Hin as [<- | Hin]; [discriminate |]). exact Hin. }
  split; [exact H |].
  destruct (flow_object_snapshot_outcome (world_at 1000 [] PyNone)
              (LogosFlowObject.mk (LogosUpdateable.mk 0 0) (PyStr "C1") (PyStr "old")
                 (PyInt 0) None) _ 5 H)
    as (i & n & am & av & Hi & Hn & Ham & Hav & Hrun).
  inversion Hi. inversion Hn. inversion Ham. inversion Hav. subst.
  rewrite Hrun. vm_compute. reflexivity.
Defined.

(** The log collection of a channel stays empty and closed through every
    call of [on_data_received]. *)
Lemma channel_logs_invariant data v w ch r w' ch' :
  LogosChannel.logs ch = empty_closed ->
  LogosChannel.on_data_received data v (w, ch) = (r, (w', ch')) ->
  LogosChannel.logs ch' = empty_closed.
Proof.
  intros Hclosed. unfold LogosChannel.on_data_received.
  unfold bind at 1.
  unfold super at 1, zoom at 1. cbn [fst snd].
  destruct (LogosFlowObject.on_data_received data v (w, LogosChannel.base ch))
    as [[[] | e] [w1 b1]]; cbn [fst snd LogosChannel.set_base].
  2:{ intros H. inversion H. exact Hclosed. }
  unfold bind at 1, lift at 1.
  destruct (functiontools.check_data data _) as [ok | e].
  2:{ intros H. inversion H. exact Hclosed. }
  unfold bind at 1, lift at 1.
  destruct (subscript data "logs") as [logs | e].
  2:{ intros H. inversion H. exact Hclosed. }
  unfold bind at 1, in_world at 1, zoom at 1. cbn [fst snd].
  destruct (LogosLogContainer.new logs w1) as [[c | e] w2] eqn:Hnew.
  2:{ intros H. inversion H. exact Hclosed. }
  apply container_new_inv in Hnew as [-> ->].
  intros H. inversion H. reflexivity.
Qed.

Lemma channel_new_logs data v w ch w' :
  LogosChannel.new data v w = (Ok ch, w') -> LogosChannel.logs ch = empty_closed.
Proof.
  unfold LogosChannel.new, bind. rewrite container_new_none. unfold construct.
  set (ch0 := LogosChannel.mk LogosFlowObject.fresh (LogosLogContainer.mk ∅ false)).
  assert (Hrun : forall d,
            match LogosChannel.on_data_received d v (w, ch0) with
            | (Ok _, (w1, obj)) => (Ok obj, w1)
            | (Raise e, (w1, _)) => (Raise e, w1)
            end = (Ok ch, w') -> LogosChannel.logs ch = empty_closed).
  { intros d.
    destruct (LogosChannel.on_data_received d v (w, ch0))
      as [[[] | e] [w1 ch1]] eqn:Hrun; intros H; inversion H; subst.
    exact (channel_logs_invariant d v w ch0 _ _ _ eq_refl Hrun). }
  destruct data; try apply Hrun.
  cbn. intros H. inversion H. reflexivity.
Qed.

(** No channel ever holds a log.  The log collection of a channel returned
    by the constructor is empty and closed; it stays so when further
    snapshots are applied, whether they are accepted or rejected; and every
    key assignment into it raises a permission error and changes nothing. *)
Theorem channel_never_holds_a_log
  (data : pyval) (v : Z) (w w' : World) (ch : LogosChannel.t) :
  LogosChannel.new data v w = (Ok ch, w') ->
  LogosChannel.logs ch = empty_closed /\
  (forall data' v' w1 r w2 ch',
     LogosChannel.on_data_received data' v' (w1, ch) = (r, (w2, ch')) ->
     LogosChannel.logs ch' = empty_closed) /\
  (forall key value w1,
     LogosChannel.logs_setitem key value (w1, ch) = (immutable, (w1, ch))).
Proof.
  intros Hnew. pose proof (channel_new_logs _ _ _ _ _ Hnew) as Hlogs.
  split; [exact Hlogs |]. split.
  - intros data' v' w1 r w2 ch' Hrun. exact (channel_logs_invariant _ _ _ _ _ _ _ Hlogs Hrun).
  - intros key value w1. destruct ch as [b c]. cbn in Hlogs. subst c. reflexivity.
Qed.

Lemma channel_never_holds_a_log_witness :
  exists ch w',
    LogosChannel.new (channel_snapshot (PyDict [])) 1 (world_at 1000 [] PyNone) = (Ok ch, w') /\
    LogosChannel.logs ch = empty_closed.
Proof.
  destruct (LogosChannel.new (channel_snapshot (PyDict [])) 1 (world_at 1000 [] PyNone))
    as [[ch | e] w'] eqn:Hnew.
  - exists ch, w'. split; [reflexivity |].
    exact (proj1 (channel_never_holds_a_log _ _ _ _ _ Hnew)).
  - exfalso. vm_compute in Hnew. discriminate.
Defined.

(** A channel validates at two levels.  A snapshot that the flow-object
    level accepts and that lacks the field [logs] is rejected, with the
    NameError in which [check_data] ends, after the flow-object fields have
    been replaced;
    an error of the flow-object level is passed on with whatever that level
    had changed. *)
Theorem channel_rejects_after_base_update
  (w w1 : World) (c : LogosChannel.t) (b1 : LogosFlowObject.t) (data : pyval) (v : Z) :
  (LogosFlowObject.on_data_received data v (w, LogosChannel.base c) = (Ok tt, (w1, b1)) ->
   has_field data "logs" = false ->
   LogosChannel.on_data_received data v (w, c) =
   (Raise (NameError "name 'LogosSerializationError' is not defined"),
    (w1, LogosChannel.mk b1 (LogosChannel.logs c)))) /\
  (forall e,
     LogosFlowObject.on_data_received data v (w, LogosChannel.base c) = (Raise e, (w1, b1)) ->
     LogosChannel.on_data_received data v (w, c) =
     (Raise e, (w1, LogosChannel.mk b1 (LogosChannel.logs c)))).
Proof.
  split.
  - intros Hbase Hlogs.
    assert (Hinv : invalid_snapshot data channel_fields).
    { right. exists "logs"%string. split; [cbn; tauto | exact Hlogs]. }
    pose proof (check_data_invalid _ _ Hinv) as Hmsg.
    unfold LogosChannel.on_data_received, channel_fields in *.
    unfold bind at 1. unfold super at 1, zoom at 1. cbn [fst snd].
    rewrite Hbase. cbn [fst snd LogosChannel.set_base].
    unfold bind at 1, lift at 1. rewrite Hmsg. reflexivity.
  - intros e Hbase. unfold LogosChannel.on_data_received.
    unfold bind at 1. unfold super at 1, zoom at 1. cbn [fst snd].
    rewrite Hbase. reflexivity.
Qed.

End FlowObjects.

(** ** datamodel.py: sequences of calls, and LogosUpgradeable *)

Section CallSequences.

(** Along any sequence of snapshots and local edits of a locally changeable
    entity, under a positive non-decreasing clock: every call returns; each
    consumes one reading of the clock; at the end the version is that of
    the last snapshot (local edits never change it), the entity is dirty
    exactly when the last call was a local edit, and the timestamp has not
    decreased and is again a reading of the clock. *)
Theorem run_ops_state (ops : list entity_op) :
  forall (w : World) (e : LogosLocallyCangeable.t),
    clock_positive w ->
    clock_monotone w ->
    stamped_by w (LogosLocallyCangeable.last_update e) ->
    exists w' e',
      run_ops ops (w, e) = (Ok tt, (w', e')) /\
      time_reads w' = (time_reads w + length ops)%nat /\
      time_source w' = time_source w /\
      LogosLocallyCangeable.version e' = version_after ops (LogosLocallyCangeable.version e) /\
      LogosLocallyCangeable.is_changed e' =
        changed_after ops (LogosLocallyCangeable.is_changed e) /\
      LogosLocallyCangeable.last_update e <= LogosLocallyCangeable.last_update e' /\
      stamped_by w' (LogosLocallyCangeable.last_update e').
Proof.
  induction ops as [| op rest IH]; intros w e Hpos Hmono Hst.
  - exists w, e. cbn. repeat split; try lia. exact Hst.
  - assert (Hle : LogosLocallyCangeable.last_update e <= reading w)
      by now apply stamped_le_reading.
    destruct op as [data v |].
    + destruct (IH (tick w)
                  (LogosLocallyCangeable.mk (LogosUpdateable.mk (reading w) v) false)
                  (clock_positive_tick _ Hpos) (clock_monotone_tick _ Hmono)
                  (reading_stamped w))
        as (w' & e' & Hrun & Hreads & Hsrc & Hver & Hch & Hlu & Hst').
      exists w', e'. split.
      { cbn [run_ops]. unfold bind at 1.
        rewrite LocallyCangeable_on_data_received_run. exact Hrun. }
      split; [rewrite Hreads; cbn; lia |]. split; [exact Hsrc |].
      split; [exact Hver |]. split; [exact Hch |]. split; [| exact Hst'].
      etransitivity; [exact Hle | exact Hlu].
    + destruct (IH (tick w)
                  (LogosLocallyCangeable.mk
                     (LogosUpdateable.mk (reading w) (LogosLocallyCangeable.version e)) true)
                  (clock_positive_tick _ Hpos) (clock_monotone_tick _ Hmono)
                  (reading_stamped w))
        as (w' & e' & Hrun & Hreads & Hsrc & Hver & Hch & Hlu & Hst').
      exists w', e'. split.
      { cbn [run_ops]. unfold bind at 1.
        rewrite LocallyCangeable_on_update_run. exact Hrun. }
      split; [rewrite Hreads; cbn; lia |]. split; [exact Hsrc |].
      split; [exact Hver |]. split; [exact Hch |]. split; [| exact Hst'].
      etransitivity; [exact Hle | exact Hlu].
Qed.

Lemma run_ops_state_witness :
  let w := world_at 1000 [] PyNone in
  let ops := [LocalEdit; Snapshot PyNone 4; LocalEdit] in
  clock_positive w /\ clock_monotone w /\
  stamped_by w (LogosLocallyCangeable.last_update LogosLocallyCangeable.init) /\
  exists w' e',
    run_ops ops (w, LogosLocallyCangeable.init) = (Ok tt, (w', e')) /\
    LogosLocallyCangeable.version e' = 4 /\
    LogosLocallyCangeable.is_changed e' = true.
Proof.
  cbv zeta.
  assert (Hp : clock_positive (world_at 1000 [] PyNone)).
  { intros n. unfold world_at, clock_from. simpl. lia. }
  assert (Hm : clock_monotone (world_at 1000 [] PyNone)).
  { intros m n Hmn. unfold world_at, clock_from. simpl. lia. }
  assert (Hs : stamped_by (world_at 1000 [] PyNone)
                 (LogosLocallyCangeable.last_update LogosLocallyCangeable.init)).
  { left. reflexivity. }
  split; [exact Hp | split; [exact Hm | split; [exact Hs |]]].
  destruct (run_ops_state [LocalEdit; Snapshot PyNone 4; LocalEdit]
              (world_at 1000 [] PyNone) LogosLocallyCangeable.init Hp Hm Hs)
    as (w' & e' & Hrun & _ & _ & Hver & Hch & _).
  exists w', e'. split; [exact Hrun | split; [exact Hver | exact Hch]].
Defined.

(** [upgrade] adds one to an int version, so [n] calls add [n] and
    [to_json_dict] shows the sum; on a version that is not a number
    [upgrade] raises TypeError and leaves the object as it was. *)
Theorem upgrade_counts (n : nat) (z : Z) (s : string) :
  LogosUpgradeable.upgrade_times n (LogosUpgradeable.new (PyInt z)) =
    (Ok tt, LogosUpgradeable.new (PyInt (z + Z.of_nat n))) /\
  LogosUpgradeable.to_json_dict
    (snd (LogosUpgradeable.upgrade_times n (LogosUpgradeable.new (PyInt z)))) =
    PyDict [("version", PyInt (z + Z.of_nat n))] /\
  (exists msg,
     LogosUpgradeable.upgrade (LogosUpgradeable.new (PyStr s)) =
     (Raise (TypeError msg), LogosUpgradeable.new (PyStr s))) /\
  (exists msg,
     LogosUpgradeable.upgrade (LogosUpgradeable.new PyNone) =
     (Raise (TypeError msg), LogosUpgradeable.new PyNone)).
Proof.
  assert (Hrun : forall m y,
            LogosUpgradeable.upgrade_times m (LogosUpgradeable.new (PyInt y)) =
            (Ok tt, LogosUpgradeable.new (PyInt (y + Z.of_nat m)))).
  { induction m as [| m IH]; intros y.
    - cbn. now rewrite Z.add_0_r.
    - cbn [LogosUpgradeable.upgrade_times]. unfold bind.
      cbn [LogosUpgradeable.upgrade LogosUpgradeable.new LogosUpgradeable.version add_one].
      change (LogosUpgradeable.mk (PyInt (y + 1))) with (LogosUpgradeable.new (PyInt (y + 1))).
      rewrite IH. do 2 f_equal. f_equal. lia. }
  split; [apply Hrun |]. split; [rewrite Hrun; reflexivity |].
  split; eexists; reflexivity.
Qed.

(** [from_json] inverts [to_json] whenever the JSON codec returns the dict
    it was given; on every document that is not an object with the key
    [version] it ends in the NameError of [check_data]; it passes on an
    error of the parser; and it never returns [None]. *)
Theorem from_json_outcomes
  (json_loads : string -> result pyval) (json_dumps : pyval -> result string)
  (x : LogosUpgradeable.t) (text : string) :
  (json_dumps (LogosUpgradeable.to_json_dict x) = Ok text ->
   json_loads text = Ok (LogosUpgradeable.to_json_dict x) ->
   LogosUpgradeable.to_json json_dumps x = Ok text /\
   LogosUpgradeable.from_json json_loads text = Ok (Some x)) /\
  (forall data,
     json_loads text = Ok data -> invalid_snapshot data ["version"%string] ->
     LogosUpgradeable.from_json json_loads text =
     Raise (NameError "name 'LogosSerializationError' is not defined")) /\
  (forall e, json_loads text = Raise e ->
             LogosUpgradeable.from_json json_loads text = Raise e) /\
  LogosUpgradeable.from_json json_loads text <> Ok None.
Proof.
  split; [| split; [| split]].
  - intros Hd Hl. split; [exact Hd |].
    unfold LogosUpgradeable.from_json. rewrite Hl. destruct x as [ver]. reflexivity.
  - intros data Hl Hinv. pose proof (check_data_invalid _ _ Hinv) as Hmsg.
    unfold LogosUpgradeable.from_json. now rewrite Hl, Hmsg.
  - intros e Hl. unfold LogosUpgradeable.from_json. now rewrite Hl.
  - unfold LogosUpgradeable.from_json.
    destruct (json_loads text) as [data | e]; [| discriminate].
    destruct (functiontools.check_data data ["version"%string]) as [[|] | e] eqn:Hc;
      [| | discriminate].
    + destruct (subscript data "version"); discriminate.
    + exfalso. exact (check_data_never_false _ _ Hc).
Qed.

Example from_json_round_trip_example :
  LogosUpgradeable.to_json toy_json_dumps (LogosUpgradeable.new (PyInt 3)) = Ok "version-3"%string /\
  LogosUpgradeable.from_json toy_json_loads "version-3" =
    Ok (Some (LogosUpgradeable.new (PyInt 3))) /\
  LogosUpgradeable.serialize toy_json_dumps (LogosUpgradeable.new (PyInt 3)) = Ok PyNone.
Proof. repeat split. Qed.

End CallSequences.

(** ** user.py: the current user *)

Section CurrentUserSnapshot.

(** [CurrentUser.on_data_received] never returns and never stores the id.
    On every input it stamps the class with the version and the time of the
    call and then ends in a NameError: for an invalid snapshot the one of
    [check_data], whose exception class is not bound, and for a valid one
    that of the first assignment to [self], a name that a classmethod does
    not bind.  [get_id()] answers after the call what it answered
    before. *)
Theorem CurrentUser_snapshot_never_stores_id
  (w : World) (cls : Singleton) (data : pyval) (v : Z) :
  exists e,
    CurrentUser.on_data_received data v (w, cls) =
      (Raise e, (tick w, mkSingleton (reading w) v)) /\
    fst (CurrentUser.get_id (tick w)) = fst (CurrentUser.get_id w) /\
    (invalid_snapshot data current_user_fields ->
     e = NameError "name 'LogosSerializationError' is not defined") /\
    (~ invalid_snapshot data current_user_fields ->
     e = NameError "name 'self' is not defined").
Proof.
  destruct (invalid_snapshot_dec data current_user_fields) as [Hinv | Hvalid].
  - pose proof (check_data_invalid _ _ Hinv) as Hmsg.
    exists unbound_LogosSerializationError. split; [| split; [reflexivity | split]].
    + unfold CurrentUser.on_data_received, current_user_fields in *. cbn.
      rewrite Hmsg. reflexivity.
    + intros _. reflexivity.
    + intros Hv. contradiction.
  - exists (NameError "name 'self' is not defined").
    split; [| split; [reflexivity | split]].
    + pose proof (check_data_valid _ _ Hvalid) as Hok.
      destruct (valid_snapshot_fields _ _ Hvalid) as (d & -> & Hfields).
      destruct (Hfields "id"%string) as [_ [x Hx]]; [cbn; tauto |].
      unfold CurrentUser.on_data_received, current_user_fields in *.
      unfold bind at 1. rewrite Singleton_on_data_received_run.
      unfold bind at 1, lift at 1. rewrite Hok.
      unfold bind at 1, lift at 1. cbn [subscript]. rewrite Hx. reflexivity.
    + intros Hinv. contradiction.
    + intros _. reflexivity.
Qed.

Example CurrentUser_snapshot_example :
  CurrentUser.on_data_received user_snapshot 1 (world_at 1000 [] PyNone, mkSingleton 0 0) =
  (Raise (NameError "name 'self' is not defined"),
   (tick (world_at 1000 [] PyNone), mkSingleton 1000 1)) /\
  CurrentUser.assign_id "cls" (PyStr "U7") (world_at 1000 [] PyNone, mkSingleton 0 0) =
  (Ok tt, (world_at 1000 [] (PyStr "U7"), mkSingleton 0 0)).
Proof. split; reflexivity. Qed.

End CurrentUserSnapshot.

(** ** attributes.py: the structure of Descriptions *)

Section DescriptionStructure.

(** A snapshot of Descriptions replaces the structure.  Afterwards a key is
    available exactly when the snapshot holds it; for such a key
    [available_value] answers whether the value is in the list of the key
    and [get_all_value_ids] returns that list; for any other key both
    raise a permission error instead of answering [False] or an empty
    list. *)
Theorem Descriptions_snapshot_lookup
  (w : World) (cls : Descriptions.t) (data : gmap Z (list Z)) (v : Z) :
  exists cls',
    Descriptions.on_data_received data v (w, cls) = (Ok tt, (tick w, cls')) /\
    Descriptions.base cls' = mkSingleton (reading w) v /\
    (forall key, Descriptions.available_key cls' key = true <-> is_Some (data !! key)) /\
    (forall key values value,
       data !! key = Some values ->
       (exists found, Descriptions.available_value cls' key value = Ok found /\
                      (found = true <-> In value values)) /\
       Descriptions.get_all_value_ids cls' key = Ok values) /\
    (forall key value,
       data !! key = None ->
       (exists msg, Descriptions.available_value cls' key value =
                    Raise (LogosPermissionError msg)) /\
       (exists msg, Descriptions.get_all_value_ids cls' key =
                    Raise (LogosPermissionError msg))).
Proof.
  exists (Descriptions.mk (mkSingleton (reading w) v) data).
  split; [reflexivity |]. split; [reflexivity |]. split; [| split].
  - intros key. unfold Descriptions.available_key. cbn [Descriptions.description_structure].
    destruct (data !! key) as [values |]; split; intros H;
      try discriminate; try reflexivity; try (now eexists).
    destruct H as [x Hx]. discriminate.
  - intros key values value Hkey.
    unfold Descriptions.available_value, Descriptions.get_all_value_ids.
    cbn [Descriptions.description_structure]. rewrite Hkey. split; [| reflexivity].
    eexists. split; [reflexivity | apply existsb_eqb_In].
  - intros key value Hkey.
    unfold Descriptions.available_value, Descriptions.get_all_value_ids.
    cbn [Descriptions.description_structure]. rewrite Hkey.
    split; eexists; reflexivity.
Qed.

End DescriptionStructure.
